(** * YooKassa payment reconciliation: a shallow embedding

    The development follows [src/yookassa_service.py] (the engine:
    [_map_status], [verify_webhook_signature], [create_payment],
    [check_payment], [handle_webhook]) and takes the [PaymentStatus]
    enumeration from [src/service.py].

    Python code that raises is embedded in a state-and-exception monad over
    a [World] holding the two tables the engine reads and writes and a
    chronological trace of the calls it makes to its collaborators (the
    gateway SDK, the subscription grantor, the session flush, the logger). *)

From Stdlib Require Import ZArith String Ascii List Bool Lia.
From stdpp Require Import base list strings pretty.

Local Open Scope string_scope.
Local Open Scope list_scope.

(** ** Exceptions and results *)

Inductive Exception : Type :=
| ValueError (msg : string)
| AttributeError (msg : string)
| TypeError (msg : string)
| MultipleResultsFound
| ExternalError (msg : string).

Inductive Result (A : Type) : Type :=
| Return (a : A)
| Raise (e : Exception).

Arguments Return {A} a.
Arguments Raise {A} e.

(** ** Enumerations *)

(** [class PaymentStatus(str, Enum)] as [src/service.py] declares it,
    members in declaration order. ([src/yookassa_service.py] imports the
    enumeration of the same name from [models], which is not under [src/].) *)
Inductive PaymentStatus : Type :=
| PENDING
| WAITING_FOR_CAPTURE
| SUCCEEDED
| CANCELED.

Definition PaymentStatus_value (s : PaymentStatus) : string :=
  match s with
  | PENDING => "pending"
  | WAITING_FOR_CAPTURE => "waiting_for_capture"
  | SUCCEEDED => "succeeded"
  | CANCELED => "canceled"
  end.

Definition PaymentStatus_members : list PaymentStatus :=
  [PENDING; WAITING_FOR_CAPTURE; SUCCEEDED; CANCELED].

Definition PaymentStatus_eqb (a b : PaymentStatus) : bool :=
  match a, b with
  | PENDING, PENDING
  | WAITING_FOR_CAPTURE, WAITING_FOR_CAPTURE
  | SUCCEEDED, SUCCEEDED
  | CANCELED, CANCELED => true
  | _, _ => false
  end.

(** [PaymentStatus(value)]: lookup of a member by value; [ValueError] when
    no member has that value. *)
Definition PaymentStatus_call (value : string) : Result PaymentStatus :=
  match List.find (fun m => String.eqb (PaymentStatus_value m) value)
                  PaymentStatus_members with
  | Some m => Return m
  | None => Raise (ValueError ("'" +:+ value +:+ "' is not a valid PaymentStatus"))
  end.

(** [_map_status], with its [try] / [except ValueError]. *)
Definition _map_status (status : string) : Result PaymentStatus :=
  match PaymentStatus_call status with
  | Return s => Return s
  | Raise (ValueError _) =>
      if String.eqb status "waiting_for_capture"
      then Return WAITING_FOR_CAPTURE
      else Return PENDING
  | Raise e => Raise e
  end.

(** The four literals the gateway documents. *)
Definition known_status_literals : list string :=
  ["pending"; "waiting_for_capture"; "succeeded"; "canceled"].

(** Modelled from the spec: [models.SubscriptionTier] is not under [src/];
    the members are FREE, PRO and ULTRA, and their values are the lower-case
    member names ([src/service.py] reads the value ["free"] for FREE). *)
Inductive SubscriptionTier : Type :=
| FREE
| PRO
| ULTRA.

Definition SubscriptionTier_value (t : SubscriptionTier) : string :=
  match t with
  | FREE => "free"
  | PRO => "pro"
  | ULTRA => "ultra"
  end.

Definition SubscriptionTier_members : list SubscriptionTier := [FREE; PRO; ULTRA].

(** [SubscriptionTier(value)]. *)
Definition SubscriptionTier_call (value : string) : Result SubscriptionTier :=
  match List.find (fun m => String.eqb (SubscriptionTier_value m) value)
                  SubscriptionTier_members with
  | Some m => Return m
  | None => Raise (ValueError ("'" +:+ value +:+ "' is not a valid SubscriptionTier"))
  end.

(** ** Configuration

    [config.settings], the fields the engine reads. An unset webhook secret
    is [None]; [not secret] also holds of the empty string. *)
Record Settings : Type := {
  pro_monthly_price : Z;
  ultra_monthly_price : Z;
  yookassa_webhook_secret : option string;
  yookassa_return_url : string
}.

(** ** Dynamic values of a webhook payload

    A payload is a parsed JSON document. Floats are left out: the engine
    only looks at the truth value and the type of what it finds. *)
#[warnings="-register-all"]
Inductive PyVal : Type :=
| PyNone
| PyBool (b : bool)
| PyInt (n : Z)
| PyStr (s : string)
| PyList (items : list PyVal)
| PyDict (items : list (string * PyVal)).

Definition PyDictItems : Type := list (string * PyVal).

(** Python truth value. *)
Definition truthy (v : PyVal) : bool :=
  match v with
  | PyNone => false
  | PyBool b => b
  | PyInt n => negb (n =? 0)%Z
  | PyStr s => negb (String.eqb s EmptyString)
  | PyList items => match items with [] => false | _ => true end
  | PyDict items => match items with [] => false | _ => true end
  end.

(** [d.get(key)] on a dict: the value, or [None]. *)
Fixpoint dict_get (d : PyDictItems) (key : string) : PyVal :=
  match d with
  | [] => PyNone
  | (k, v) :: rest => if String.eqb k key then v else dict_get rest key
  end.

(** [v.get(key)] on an arbitrary value: only a dict has the method. *)
Definition py_get (v : PyVal) (key : string) : Result PyVal :=
  match v with
  | PyDict d => Return (dict_get d key)
  | _ => Raise (AttributeError "object has no attribute 'get'")
  end.

(** [a or b]. *)
Definition py_or (a b : PyVal) : PyVal := if truthy a then a else b.

(** Truth value of an [Optional[str]]. *)
Definition truthy_opt_str (s : option string) : bool :=
  match s with
  | None => false
  | Some s => negb (String.eqb s EmptyString)
  end.

(** ** Strings *)

(** [str.capitalize] on ASCII letters: first character upper-cased, the rest
    lower-cased. *)
Definition ascii_upper (c : ascii) : ascii :=
  let n := nat_of_ascii c in
  if (97 <=? n)%nat && (n <=? 122)%nat then ascii_of_nat (n - 32) else c.

Definition ascii_lower (c : ascii) : ascii :=
  let n := nat_of_ascii c in
  if (65 <=? n)%nat && (n <=? 90)%nat then ascii_of_nat (n + 32) else c.

Fixpoint string_map (f : ascii -> ascii) (s : string) : string :=
  match s with
  | EmptyString => EmptyString
  | String c rest => String (f c) (string_map f rest)
  end.

Definition capitalize (s : string) : string :=
  match s with
  | EmptyString => EmptyString
  | String c rest => String (ascii_upper c) (string_map ascii_lower rest)
  end.

Definition is_ascii_str (s : string) : bool :=
  forallb (fun c => (nat_of_ascii c <? 128)%nat) (list_ascii_of_string s).

(** [hmac.compare_digest] on two [str]: equality, and [TypeError] when
    either holds a non-ASCII character. *)
Definition compare_digest (a b : string) : Result bool :=
  if is_ascii_str a && is_ascii_str b
  then Return (String.eqb a b)
  else Raise (TypeError "comparing strings with non-ASCII characters is not supported").

(** Replacing the character at position [i]. *)
Definition flip_char (i : nat) (c : ascii) (s : string) : string :=
  string_of_list_ascii (<[i := c]> (list_ascii_of_string s)).

(** [s'] is [s] with exactly one character changed. *)
Definition one_char_flip (s s' : string) : Prop :=
  exists (i : nat) (old new : ascii),
    list_ascii_of_string s !! i = Some old /\ new <> old /\ s' = flip_char i new s.

(** ** Records *)

(** [models.Payment], the columns the engine sets. The primary key is the
    position of the row in the table. [subscription_tier] holds the tier's
    value, [amount] is in kopecks, [processed_at] is a timestamp. *)
Record Payment : Type := {
  user_id : Z;
  yookassa_payment_id : string;
  subscription_tier : string;
  amount : Z;
  status : PaymentStatus;
  description : string;
  confirmation_url : option string;
  processed_at : option Z;
  error_message : option string
}.

Definition set_status (p : Payment) (s : PaymentStatus) : Payment :=
  {| user_id := user_id p; yookassa_payment_id := yookassa_payment_id p;
     subscription_tier := subscription_tier p; amount := amount p;
     status := s; description := description p;
     confirmation_url := confirmation_url p; processed_at := processed_at p;
     error_message := error_message p |}.

Definition set_processed_at (p : Payment) (t : option Z) : Payment :=
  {| user_id := user_id p; yookassa_payment_id := yookassa_payment_id p;
     subscription_tier := subscription_tier p; amount := amount p;
     status := status p; description := description p;
     confirmation_url := confirmation_url p; processed_at := t;
     error_message := error_message p |}.

Definition set_error_message (p : Payment) (m : option string) : Payment :=
  {| user_id := user_id p; yookassa_payment_id := yookassa_payment_id p;
     subscription_tier := subscription_tier p; amount := amount p;
     status := status p; description := description p;
     confirmation_url := confirmation_url p; processed_at := processed_at p;
     error_message := m |}.

(** The request body [create_payment] sends to [YooPayment.create]. *)
Record CreateRequest : Type := {
  req_amount_value : string;
  req_amount_currency : string;
  req_confirmation_type : string;
  req_confirmation_return_url : string;
  req_capture : bool;
  req_description : string;
  req_metadata_user_id : string;
  req_metadata_tier : string
}.

(** What the engine reads of the SDK's response objects. [confirmation]
    and [cancellation_details] may be absent; the response of a creation
    also reports an amount, which the engine never reads. *)
Record Confirmation : Type := { conf_confirmation_url : option string }.

Record CreateResponse : Type := {
  created_id : string;
  created_status : string;
  created_amount_value : string;
  created_confirmation : option Confirmation
}.

Record CancellationDetails : Type := { reason : option string }.

Record FindResponse : Type := {
  found_status : string;
  found_cancellation_details : option CancellationDetails
}.

(** The row that lines 165-169 of [check_payment] leave in memory. *)
Definition reconciled (p : Payment) (new_status : PaymentStatus) (now : Z)
  (response : FindResponse) : Payment :=
  let p := set_status p new_status in
  let p := set_processed_at p (Some now) in
  let p := set_error_message p None in
  match found_cancellation_details response with
  | Some details => set_error_message p (reason details)
  | None => p
  end.

Inductive LogLevel : Type := INFO | WARNING | ERROR.

(** ** The engine *)

Section Engine.

(** [models.User] is not under [src/]; the engine reads only [user.id]. *)
Variable User : Type.
Variable User_id : User -> Z.

(** [config.settings]. *)
Variable settings : Settings.

(** [json.dumps(payload, separators=(',', ':'), ensure_ascii=False)] and
    [hmac.new(secret.encode('utf-8'), body.encode('utf-8'),
    hashlib.sha256).hexdigest()]: library functions, pure, and allowed to
    raise (an unencodable string). *)
Variable json_dumps : PyDictItems -> Result string.
Variable hmac_sha256_hexdigest : string -> string -> Result string.

(** What the engine does to the outside, in the order it does it. A log
    record keeps the text of the message as the source writes it,
    placeholders not expanded. *)
Inductive Event : Type :=
| GatewayCreate (payload : CreateRequest) (idempotence_key : string)
| GatewayFindOne (payment_id : string)
| Grant (user : User) (tier : SubscriptionTier) (duration_days : Z)
| Flush
| Log (level : LogLevel) (msg : string).

(** The session's tables and the trace. *)
Record World : Type := {
  payments : list Payment;
  users : list User;
  trace : list Event
}.

(** The collaborators as they answer during one call of the engine: the
    gateway SDK ([YooPayment.create], [YooPayment.find_one]), the grantor
    ([UserService.upgrade_subscription], which works on the user table and
    may raise after changing it), [uuid4()] and the clock. *)
Record Env : Type := {
  YooPayment_create : CreateRequest -> string -> Result CreateResponse;
  YooPayment_find_one : string -> Result FindResponse;
  upgrade_subscription :
    list User -> User -> SubscriptionTier -> Z -> Result unit * list User;
  uuid4 : string;
  now : Z
}.

(** *** State and exceptions *)

Definition M (A : Type) : Type := World -> Result A * World.

Definition ret {A : Type} (a : A) : M A := fun w => (Return a, w).

Definition raise {A : Type} (e : Exception) : M A := fun w => (Raise e, w).

Definition lift {A : Type} (r : Result A) : M A := fun w => (r, w).

Definition bind {A B : Type} (m : M A) (k : A -> M B) : M B :=
  fun w =>
    match m w with
    | (Return a, w') => k a w'
    | (Raise e, w') => (Raise e, w')
    end.

(** [try: m except Exception as e: handler e]. *)
Definition try_except {A : Type} (m : M A) (handler : Exception -> M A) : M A :=
  fun w =>
    match m w with
    | (Return a, w') => (Return a, w')
    | (Raise e, w') => handler e w'
    end.

Local Notation "'let*' x ':=' m 'in' k" := (bind m (fun x => k))
  (at level 10, x pattern, m at level 100, k at level 200).
Local Notation "m ';;' k" := (bind m (fun _ => k))
  (at level 100, k at level 200, right associativity).

Definition emit (e : Event) : M unit :=
  fun w => (Return tt,
            {| payments := payments w; users := users w; trace := trace w ++ [e] |}).

Definition log (level : LogLevel) (msg : string) : M unit := emit (Log level msg).

(** The world with more events at the end of its trace. *)
Definition add_trace (w : World) (events : list Event) : World :=
  {| payments := payments w; users := users w; trace := trace w ++ events |}.

(** *** The session *)

(** [Result.scalar_one_or_none()]. *)
Definition scalar_one_or_none {A : Type} (rows : list A) : Result (option A) :=
  match rows with
  | [] => Return None
  | [r] => Return (Some r)
  | _ => Raise MultipleResultsFound
  end.

(** [select(Payment).where(Payment.yookassa_payment_id == payment_id)]: the
    matching rows with their positions. *)
Definition payments_where_id (payment_id : string) (table : list Payment)
  : list (nat * Payment) :=
  List.filter (fun r => String.eqb (yookassa_payment_id (snd r)) payment_id)
              (imap pair table).

Definition lookup_payment (payment_id : string) (table : list Payment)
  : Result (option (nat * Payment)) :=
  scalar_one_or_none (payments_where_id payment_id table).

Definition select_payment (payment_id : string) : M (option (nat * Payment)) :=
  fun w => (lookup_payment payment_id (payments w), w).

(** [select(User).where(User.id == user_id)]. *)
Definition users_where_id (uid : Z) (table : list User) : list User :=
  List.filter (fun u => (User_id u =? uid)%Z) table.

Definition lookup_user (uid : Z) (table : list User) : Result (option User) :=
  scalar_one_or_none (users_where_id uid table).

Definition select_user (uid : Z) : M (option User) :=
  fun w => (lookup_user uid (users w), w).

(** [session.add(payment)]: a new row at the end of the table. *)
Definition session_add (p : Payment) : M unit :=
  fun w => (Return tt,
            {| payments := payments w ++ [p]; users := users w; trace := trace w |}).

(** The attribute assignments made on the loaded row [i]. *)
Definition session_write (i : nat) (p : Payment) : M unit :=
  fun w => (Return tt,
            {| payments := <[i := p]> (payments w); users := users w;
               trace := trace w |}).

(** [await session.flush()]. *)
Definition session_flush : M unit := emit Flush.

(** *** Calls to the collaborators *)

Definition gateway_create (o : Env) (payload : CreateRequest) (key : string)
  : M CreateResponse :=
  emit (GatewayCreate payload key) ;; lift (YooPayment_create o payload key).

Definition gateway_find_one (o : Env) (payment_id : string) : M FindResponse :=
  emit (GatewayFindOne payment_id) ;; lift (YooPayment_find_one o payment_id).

Definition user_service_upgrade_subscription
  (o : Env) (user : User) (tier : SubscriptionTier) (duration_days : Z) : M unit :=
  emit (Grant user tier duration_days) ;;
  fun w =>
    let '(r, us) := upgrade_subscription o (users w) user tier duration_days in
    (r, {| payments := payments w; users := us; trace := trace w |}).

(** *** [YooKassaService] *)

Definition _get_tier_price_rubles (tier : SubscriptionTier) : Z :=
  match tier with
  | PRO => pro_monthly_price settings
  | ULTRA => ultra_monthly_price settings
  | _ => 0%Z
  end.

Definition verify_webhook_signature (payload : PyDictItems) (signature : string)
  : M bool :=
  if negb (truthy_opt_str (yookassa_webhook_secret settings)) then
    log WARNING "YooKassa webhook secret not configured, skipping verification" ;;
    ret true
  else
    try_except
      (let* notification_body := lift (json_dumps payload) in
       let* expected_signature :=
         lift (hmac_sha256_hexdigest
                 (default EmptyString (yookassa_webhook_secret settings)) notification_body) in
       let* is_valid := lift (compare_digest expected_signature signature) in
       (if negb is_valid then log WARNING "Invalid webhook signature" else ret tt) ;;
       ret is_valid)
      (fun exc =>
         log ERROR "Webhook signature verification failed: {exc}" ;;
         ret false).

(** [f"{amount_rubles:.2f}"] of a positive [int] price (exact below 2^53). *)
Definition format_2f (n : Z) : string := pretty n +:+ ".00".

(** The [description] and the [payload] that [create_payment] builds. *)
Definition payment_description (user : User) (tier : SubscriptionTier) : string :=
  "Подписка " +:+ capitalize (SubscriptionTier_value tier)
    +:+ " для пользователя " +:+ pretty (User_id user).

Definition payment_payload (amount_rubles : Z) (description : string)
  (user : User) (tier : SubscriptionTier) : CreateRequest :=
  {| req_amount_value := format_2f amount_rubles;
     req_amount_currency := "RUB";
     req_confirmation_type := "redirect";
     req_confirmation_return_url := yookassa_return_url settings;
     req_capture := true;
     req_description := description;
     req_metadata_user_id := pretty (User_id user);
     req_metadata_tier := SubscriptionTier_value tier |}.

Definition create_payment (o : Env) (user : User) (tier : SubscriptionTier)
  : M Payment :=
  let amount_rubles := _get_tier_price_rubles tier in
  let description := payment_description user tier in
  if (amount_rubles <=? 0)%Z then
    raise (ValueError ("Invalid amount for tier " +:+ SubscriptionTier_value tier))
  else
    let payload := payment_payload amount_rubles description user tier in
    let* response :=
      try_except
        (let idempotence_key := uuid4 o in
         gateway_create o payload idempotence_key)
        (fun e => log ERROR "Failed to create YooKassa payment" ;; raise e) in
    let* mapped := lift (_map_status (created_status response)) in
    let* confirmation :=
      match created_confirmation response with
      | Some c => ret c
      | None => raise (AttributeError
                         "'NoneType' object has no attribute 'confirmation_url'")
      end in
    let payment :=
      {| user_id := User_id user;
         yookassa_payment_id := created_id response;
         subscription_tier := SubscriptionTier_value tier;
         amount := (amount_rubles * 100)%Z;
         status := mapped;
         description := description;
         confirmation_url := conf_confirmation_url confirmation;
         processed_at := None;
         error_message := None |} in
    session_add payment ;;
    session_flush ;;
    ret payment.

Definition check_payment (o : Env) (payment_id : string) : M Payment :=
  let* result := select_payment payment_id in
  match result with
  | None => raise (ValueError "Payment not found")
  | Some (i, payment) =>
      if PaymentStatus_eqb (status payment) SUCCEEDED then ret payment
      else
        let* response :=
          try_except
            (gateway_find_one o payment_id)
            (fun e => log ERROR "Failed to check YooKassa payment" ;; raise e) in
        let* new_status := lift (_map_status (found_status response)) in
        (if PaymentStatus_eqb new_status SUCCEEDED
            && negb (PaymentStatus_eqb (status payment) SUCCEEDED)
         then
           let* user := select_user (user_id payment) in
           match user with
           | Some u =>
               let* tier := lift (SubscriptionTier_call (subscription_tier payment)) in
               user_service_upgrade_subscription o u tier 30
           | None => ret tt
           end
         else ret tt) ;;
        let payment := set_status payment new_status in
        let payment := set_processed_at payment (Some (now o)) in
        let payment := set_error_message payment None in
        let payment :=
          match found_cancellation_details response with
          | Some details => set_error_message payment (reason details)
          | None => payment
          end in
        session_write i payment ;;
        session_flush ;;
        ret payment
  end.

(** A [payment_id] taken from the payload that is not a [str] is compared
    with the column without coercion and selects no row. *)
Definition check_payment_by_value (o : Env) (payment_id : PyVal) : M Payment :=
  match payment_id with
  | PyStr s => check_payment o s
  | _ => raise (ValueError "Payment not found")
  end.

Definition handle_webhook (o : Env) (payload : PyDictItems)
  (signature : option string) : M (option Payment) :=
  log INFO "Processing YooKassa webhook (v3.3 - Fixed)" ;;
  let* rejected :=
    match signature with
    | Some s =>
        if truthy_opt_str signature
        then let* ok := verify_webhook_signature payload s in ret (negb ok)
        else ret false
    | None => ret false
    end in
  if rejected : bool then
    log ERROR "Webhook signature verification failed, ignoring webhook" ;;
    ret None
  else
    let event_object := py_or (dict_get payload "object") (PyDict []) in
    let* payment_id := lift (py_get event_object "id") in
    if negb (truthy payment_id) then ret None
    else
      try_except
        (let* p := check_payment_by_value o payment_id in ret (Some p))
        (fun e =>
           log ERROR "Error handling webhook for payment {payment_id}: {e}" ;;
           ret None).

(** The log records of [handle_webhook]. *)
Definition webhook_info_log : Event :=
  Log INFO "Processing YooKassa webhook (v3.3 - Fixed)".

Definition webhook_rejected_log : Event :=
  Log ERROR "Webhook signature verification failed, ignoring webhook".

Definition webhook_error_log : Event :=
  Log ERROR "Error handling webhook for payment {payment_id}: {e}".

(** [handle_webhook] from line 191 on: what it does once the signature
    check has let the delivery through. *)
Definition delegate (o : Env) (payload : PyDictItems) (w : World)
  : Result (option Payment) * World :=
  match py_get (py_or (dict_get payload "object") (PyDict [])) "id" with
  | Raise e => (Raise e, w)
  | Return payment_id =>
      if negb (truthy payment_id) then (Return None, w)
      else
        match check_payment_by_value o payment_id w with
        | (Return p, w') => (Return (Some p), w')
        | (Raise e, w') => (Return None, add_trace w' [webhook_error_log])
        end
  end.

(** The signature is absent, empty, or verifies. *)
Definition accepted (payload : PyDictItems) (signature : option string) : Prop :=
  truthy_opt_str signature = false
  \/ exists s, signature = Some s
               /\ forall w, fst (verify_webhook_signature payload s w) = Return true.

(** *** Sequences of reconciliation passes *)

Inductive Pass : Type :=
| CheckPayment (o : Env) (payment_id : string)
| HandleWebhook (o : Env) (payload : PyDictItems) (signature : option string).

(** One pass; what it returns or raises goes to its caller, the world stays. *)
Definition reconcile (p : Pass) (w : World) : World :=
  match p with
  | CheckPayment o payment_id => snd (check_payment o payment_id w)
  | HandleWebhook o payload signature => snd (handle_webhook o payload signature w)
  end.

Definition reconcile_all (ps : list Pass) (w : World) : World :=
  fold_left (fun w p => reconcile p w) ps w.

(** Counting calls in a trace. *)
Definition is_gateway_call (e : Event) : bool :=
  match e with
  | GatewayCreate _ _ | GatewayFindOne _ => true
  | _ => false
  end.

Definition is_grant (e : Event) : bool :=
  match e with
  | Grant _ _ _ => true
  | _ => false
  end.

Definition is_log (e : Event) : bool :=
  match e with
  | Log _ _ => true
  | _ => false
  end.

End Engine.

Arguments GatewayCreate {User} payload idempotence_key.
Arguments GatewayFindOne {User} payment_id.
Arguments Grant {User} user tier duration_days.
Arguments Flush {User}.
Arguments Log {User} level msg.
Arguments payments {User} w.
Arguments users {User} w.
Arguments trace {User} w.
Arguments Build_World {User} payments users trace.
Arguments YooPayment_create {User} e payload key.
Arguments YooPayment_find_one {User} e payment_id.
Arguments upgrade_subscription {User} e table user tier duration_days.
Arguments uuid4 {User} e.
Arguments now {User} e.
Arguments Build_Env {User}.
Arguments add_trace {User} w events.
Arguments ret {User A} a w.
Arguments raise {User A} e w.
Arguments lift {User A} r w.
Arguments bind {User A B} m k w.
Arguments try_except {User A} m handler w.
Arguments emit {User} e w.
Arguments log {User} level msg w.
Arguments select_payment {User} payment_id w.
Arguments select_user {User} User_id uid w.
Arguments session_add {User} p w.
Arguments session_write {User} i p w.
Arguments session_flush {User} w.
Arguments gateway_create {User} o payload key w.
Arguments gateway_find_one {User} o payment_id w.
Arguments user_service_upgrade_subscription {User} o user tier duration_days w.
Arguments lookup_user {User} User_id uid table.
Arguments payment_description {User} User_id user tier.
Arguments payment_payload {User} User_id settings amount_rubles description user tier.
Arguments verify_webhook_signature {User} settings json_dumps hmac_sha256_hexdigest
  payload signature w.
Arguments create_payment {User} User_id settings o user tier w.
Arguments check_payment {User} User_id o payment_id w.
Arguments check_payment_by_value {User} User_id o payment_id w.
Arguments handle_webhook {User} User_id settings json_dumps hmac_sha256_hexdigest
  o payload signature w.
Arguments webhook_info_log {User}.
Arguments webhook_rejected_log {User}.
Arguments webhook_error_log {User}.
Arguments delegate {User} User_id o payload w.
Arguments accepted {User} settings json_dumps hmac_sha256_hexdigest payload signature.
Arguments CheckPayment {User} o payment_id.
Arguments HandleWebhook {User} o payload signature.
Arguments reconcile {User} User_id settings json_dumps hmac_sha256_hexdigest p w.
Arguments reconcile_all {User} User_id settings json_dumps hmac_sha256_hexdigest ps w.
Arguments is_gateway_call {User} e.
Arguments is_grant {User} e.
Arguments is_log {User} e.

(** ** Auxiliary notions for the properties *)

(** The rows of [table] whose gateway id is [payment_id], numbered from
    [k]: [payments_where_id] by recursion on the table. *)
Fixpoint rows_from (payment_id : string) (k : nat) (table : list Payment)
  : list (nat * Payment) :=
  match table with
  | [] => []
  | p :: rest =>
      if String.eqb (yookassa_payment_id p) payment_id
      then (k, p) :: rows_from payment_id (S k) rest
      else rows_from payment_id (S k) rest
  end.

(** The columns that [check_payment] never assigns. *)
Definition same_fixed_columns (p q : Payment) : Prop :=
  user_id q = user_id p
  /\ yookassa_payment_id q = yookassa_payment_id p
  /\ subscription_tier q = subscription_tier p
  /\ amount q = amount p
  /\ description q = description p
  /\ confirmation_url q = confirmation_url p.

(** [PaymentStatus.is_successful] of [src/service.py]. *)
Definition is_successful (self : PaymentStatus) : bool :=
  PaymentStatus_eqb self SUCCEEDED.

(** ** The older service of [src/service.py]

    [YooKassaService.create_payment] and [YooKassaService.check_payment] of
    [src/service.py] never use their session: they call the gateway once
    and build a [PaymentData]. Each is embedded as the result it returns or
    raises together with the list of gateway calls it made. *)

Module Service.

(** The dict passed to [Payment.create]; [user_id] goes in as an [int]. *)
Record CreateRequest : Type := {
  amount_value : string;
  amount_currency : string;
  confirmation_type : string;
  confirmation_return_url : string;
  capture : bool;
  description : string;
  metadata_user_id : Z;
  metadata_tier : string
}.

(** What the service reads of the SDK's payment object. [metadata] is
    whatever the gateway stored; [confirmation] may be absent. *)
Record PaymentResponse : Type := {
  id : string;
  status : string;
  amount : string;
  metadata : PyVal;
  confirmation : option Confirmation
}.

Inductive Call : Type :=
| Create (request : CreateRequest) (idempotence_key : string)
| FindOne (payment_id : string).

(** [d.get(key, default)]: the default only when the key is missing. *)
Fixpoint dict_get_default (d : PyDictItems) (key : string) (default : PyVal) : PyVal :=
  match d with
  | [] => default
  | (k, v) :: rest => if String.eqb k key then v else dict_get_default rest key default
  end.

(** [v.get(key, default)] on an arbitrary value. *)
Definition py_get_default (v : PyVal) (key : string) (default : PyVal) : Result PyVal :=
  match v with
  | PyDict d => Return (dict_get_default d key default)
  | _ => Raise (AttributeError "object has no attribute 'get'")
  end.

(** [SubscriptionTier(value)] on an arbitrary value: only a [str] can equal
    the value of a member. *)
Definition SubscriptionTier_of (value : PyVal) : Result SubscriptionTier :=
  match value with
  | PyStr s => SubscriptionTier_call s
  | _ => Raise (ValueError "not a valid SubscriptionTier")
  end.

Section WithGateway.

(** [models.User] and [user.id]. *)
Variable User : Type.
Variable User_id : User -> Z.

(** [float] and [float(s)], which raises on a string that is no number. *)
Variable Float : Type.
Variable float : string -> Result Float.

(** [settings.get_tier_price], which is not under [src/], with the type of
    what it returns and [str] on that type; [settings.yookassa_return_url]. *)
Variable Price : Type.
Variable get_tier_price : string -> Result Price.
Variable str : Price -> string.
Variable yookassa_return_url : string.

(** [Payment.create], [Payment.find_one] and [uuid.uuid4()]. *)
Variable Payment_create : CreateRequest -> string -> Result PaymentResponse.
Variable Payment_find_one : string -> Result PaymentResponse.
Variable uuid4 : string.

(** [@dataclass class PaymentData]. *)
Record PaymentData : Type := {
  data_yookassa_payment_id : string;
  data_status : PaymentStatus;
  data_subscription_tier : SubscriptionTier;
  data_confirmation_url : option string;
  data_amount : Float
}.

(** The arguments of [PaymentData(...)] are evaluated from left to right. *)
Definition create_payment (user : User) (tier : SubscriptionTier)
  : Result PaymentData * list Call :=
  match get_tier_price (SubscriptionTier_value tier) with
  | Raise e => (Raise e, [])
  | Return price =>
      let idempotence_key := uuid4 in
      let description :=
        "Подписка " +:+ SubscriptionTier_value tier
          +:+ " для пользователя " +:+ pretty (User_id user) in
      let request :=
        {| amount_value := str price;
           amount_currency := "RUB";
           confirmation_type := "redirect";
           confirmation_return_url := yookassa_return_url;
           capture := true;
           description := description;
           metadata_user_id := User_id user;
           metadata_tier := SubscriptionTier_value tier |} in
      (match Payment_create request idempotence_key with
       | Raise e => Raise e
       | Return payment_response =>
           match PaymentStatus_call (status payment_response) with
           | Raise e => Raise e
           | Return mapped =>
               match confirmation payment_response with
               | None => Raise (AttributeError
                                  "'NoneType' object has no attribute 'confirmation_url'")
               | Some c =>
                   match float (amount payment_response) with
                   | Raise e => Raise e
                   | Return a =>
                       Return {| data_yookassa_payment_id := id payment_response;
                                 data_status := mapped;
                                 data_subscription_tier := tier;
                                 data_confirmation_url := conf_confirmation_url c;
                                 data_amount := a |}
                   end
               end
           end
       end,
       [Create request idempotence_key])
  end.

Definition check_payment (payment_id : string) : Result PaymentData * list Call :=
  (match Payment_find_one payment_id with
   | Raise e => Raise e
   | Return payment_response =>
       match py_get_default (metadata payment_response) "tier" (PyStr "free") with
       | Raise e => Raise e
       | Return tier_str =>
           match
             match SubscriptionTier_of tier_str with
             | Return t => Return t
             | Raise (ValueError _) => Return FREE
             | Raise e => Raise e
             end
           with
           | Raise e => Raise e
           | Return tier =>
               match PaymentStatus_call (status payment_response) with
               | Raise e => Raise e
               | Return mapped =>
                   match float (amount payment_response) with
                   | Raise e => Raise e
                   | Return a =>
                       Return {| data_yookassa_payment_id := id payment_response;
                                 data_status := mapped;
                                 data_subscription_tier := tier;
                                 data_confirmation_url := None;
                                 data_amount := a |}
                   end
               end
           end
       end
   end,
   [FindOne payment_id]).

End WithGateway.

Arguments data_yookassa_payment_id {Float} p.
Arguments data_status {Float} p.
Arguments data_subscription_tier {Float} p.
Arguments data_confirmation_url {Float} p.
Arguments data_amount {Float} p.
Arguments create_payment {User} User_id {Float} float {Price} get_tier_price str
  yookassa_return_url Payment_create uuid4 user tier.
Arguments check_payment {Float} float Payment_find_one payment_id.

End Service.

(** ** A concrete instance

    Users are their ids. The serialiser and the MAC are stand-ins with the
    interface of the real ones (the digest is the key followed by the
    body); the gateway answers every query with the same status. *)

Module Example.

Definition settings : Settings :=
  {| pro_monthly_price := 500;
     ultra_monthly_price := 900;
     yookassa_webhook_secret := Some "whsec";
     yookassa_return_url := "https://shop.example/return" |}.

(** The same configuration with the webhook secret left empty. *)
Definition settings_no_secret : Settings :=
  {| pro_monthly_price := 500;
     ultra_monthly_price := 900;
     yookassa_webhook_secret := Some EmptyString;
     yookassa_return_url := "https://shop.example/return" |}.

Definition json_dumps (payload : PyDictItems) : Result string := Return "{}".

Definition hmac_sha256_hexdigest (key body : string) : Result string :=
  Return (key +:+ body).

Definition User_id (u : Z) : Z := u.

Definition created (raw_status : string) : CreateResponse :=
  {| created_id := "pay-1";
     created_status := raw_status;
     created_amount_value := "1.00";
     created_confirmation :=
       Some {| conf_confirmation_url := Some "https://yoomoney.example/confirm" |} |}.

Definition found (raw_status : string) : FindResponse :=
  {| found_status := raw_status; found_cancellation_details := None |}.

(** A gateway that reports [raw_status] and a grantor that succeeds. *)
Definition env (raw_status : string) : Env Z :=
  {| YooPayment_create := fun _ _ => Return (created raw_status);
     YooPayment_find_one := fun _ => Return (found raw_status);
     upgrade_subscription := fun table _ _ _ => (Return tt, table);
     uuid4 := "idem-1";
     now := 1700000000 |}.

(** The same gateway with a grantor that raises. *)
Definition env_grant_fails (raw_status : string) : Env Z :=
  {| YooPayment_create := fun _ _ => Return (created raw_status);
     YooPayment_find_one := fun _ => Return (found raw_status);
     upgrade_subscription :=
       fun table _ _ _ => (Raise (ExternalError "grant failed"), table);
     uuid4 := "idem-1";
     now := 1700000000 |}.

Definition payment (s : PaymentStatus) : Payment :=
  {| user_id := 7;
     yookassa_payment_id := "pay-1";
     subscription_tier := "pro";
     amount := 50000;
     status := s;
     description := "Pro";
     confirmation_url := Some "https://yoomoney.example/confirm";
     processed_at := None;
     error_message := None |}.

(** One payment of user 7, who exists. *)
Definition world (s : PaymentStatus) : World Z :=
  {| payments := [payment s]; users := [7%Z]; trace := [] |}.

(** One payment of user 7, who has no row. *)
Definition world_without_user (s : PaymentStatus) : World Z :=
  {| payments := [payment s]; users := []; trace := [] |}.

Definition empty_world : World Z :=
  {| payments := []; users := [7%Z]; trace := [] |}.

(** A delivery about payment ["pay-1"]. *)
Definition payload : PyDictItems :=
  [("event", PyStr "payment.succeeded");
   ("object", PyDict [("id", PyStr "pay-1"); ("status", PyStr "succeeded")])].

End Example.

(** ** More of the concrete instance *)

Module Scenario.

(** A gateway whose [find_one] raises. *)
Definition env_gateway_down : Env Z :=
  {| YooPayment_create := fun _ _ => Raise (ExternalError "gateway down");
     YooPayment_find_one := fun _ => Raise (ExternalError "gateway down");
     upgrade_subscription := fun table _ _ _ => (Return tt, table);
     uuid4 := "idem-2";
     now := 1700000001 |}.

(** A gateway that reports a cancellation with its reason. *)
Definition found_canceled : FindResponse :=
  {| found_status := "canceled";
     found_cancellation_details := Some {| reason := Some "expired_on_confirmation" |} |}.

Definition env_canceled : Env Z :=
  {| YooPayment_create := fun _ _ => Return (Example.created "canceled");
     YooPayment_find_one := fun _ => Return found_canceled;
     upgrade_subscription := fun table _ _ _ => (Return tt, table);
     uuid4 := "idem-3";
     now := 1700000002 |}.

(** Another payment, of user 8, already paid. *)
Definition other_payment : Payment :=
  {| user_id := 8;
     yookassa_payment_id := "pay-2";
     subscription_tier := "ultra";
     amount := 90000;
     status := SUCCEEDED;
     description := "Ultra";
     confirmation_url := None;
     processed_at := Some 1600000000%Z;
     error_message := None |}.

Definition two_payments (s : PaymentStatus) : World Z :=
  {| payments := [other_payment; Example.payment s]; users := [7%Z; 8%Z]; trace := [] |}.

(** Deliveries without a usable payment id. *)
Definition payload_without_object : PyDictItems :=
  [("event", PyStr "payment.succeeded")].

Definition payload_other_fields : PyDictItems :=
  [("object", PyDict [("id", PyStr "pay-1"); ("status", PyStr "canceled");
                      ("amount", PyDict [("value", PyStr "1.00")])])].

(** The older service: floats stand for themselves as strings, prices are
    integers, the gateway reports [raw_status] and the metadata [meta]. *)
Definition float (s : string) : Result string := Return s.

Definition get_tier_price (tier : string) : Result Z :=
  if String.eqb tier "pro" then Return 500%Z else Return 0%Z.

Definition response (raw_status : string) (meta : PyVal) : Service.PaymentResponse :=
  {| Service.id := "pay-1";
     Service.status := raw_status;
     Service.amount := "500.00";
     Service.metadata := meta;
     Service.confirmation :=
       Some {| conf_confirmation_url := Some "https://yoomoney.example/confirm" |} |}.

(** The payment of user 7 as [create_payment] stores it when the gateway
    reports "succeeded" at once, and as [check_payment] leaves it after the
    gateway has reported "succeeded". *)
Definition created_payment : Payment :=
  {| user_id := 7;
     yookassa_payment_id := "pay-1";
     subscription_tier := "pro";
     amount := 50000;
     status := SUCCEEDED;
     description := payment_description Example.User_id 7%Z PRO;
     confirmation_url := Some "https://yoomoney.example/confirm";
     processed_at := None;
     error_message := None |}.

Definition paid_payment : Payment :=
  reconciled (Example.payment PENDING) SUCCEEDED 1700000000 (Example.found "succeeded").

Definition world_after_payment : World Z :=
  {| payments := [paid_payment];
     users := [7%Z];
     trace := [GatewayFindOne "pay-1"; Grant 7%Z PRO 30; Flush] |}.

End Scenario.

(** * Properties *)

(** ** The status mapper *)

Lemma PaymentStatus_call_value (s : PaymentStatus) :
  PaymentStatus_call (PaymentStatus_value s) = Return s.
Proof. destruct s; reflexivity. Qed.

Lemma PaymentStatus_call_unknown (raw : string) :
  ~ In raw known_status_literals ->
  exists msg, PaymentStatus_call raw = Raise (ValueError msg).
Proof.
  intros Hnot. unfold PaymentStatus_call, PaymentStatus_members. cbn [List.find].
  cbn [PaymentStatus_value].
  repeat match goal with
  | |- context [String.eqb ?lit raw] =>
      destruct (String.eqb_spec lit raw) as [Heq | _];
      [ exfalso; apply Hnot; rewrite <- Heq; cbn; tauto | ]
  end.
  eexists. reflexivity.
Qed.

Lemma _map_status_returns (raw : string) :
  exists s, _map_status raw = Return s.
Proof.
  unfold _map_status, PaymentStatus_call.
  destruct (List.find _ PaymentStatus_members); [eauto |].
  destruct (String.eqb raw "waiting_for_capture"); eauto.
Qed.

Lemma map_status_of_unknown (raw : string) :
  ~ In raw known_status_literals -> _map_status raw = Return PENDING.
Proof.
  intros Hnot. destruct (PaymentStatus_call_unknown raw Hnot) as [msg Hcall].
  unfold _map_status. rewrite Hcall.
  destruct (String.eqb_spec raw "waiting_for_capture") as [Heq | _]; [| reflexivity].
  exfalso. apply Hnot. rewrite Heq. cbn. tauto.
Qed.

(** C4. [_map_status] sends the four known literals to their members, every
    other string to PENDING, and returns (never raises) on every string. *)
Theorem map_status_total_failsafe (raw : string) :
  (_map_status "pending" = Return PENDING
   /\ _map_status "waiting_for_capture" = Return WAITING_FOR_CAPTURE
   /\ _map_status "succeeded" = Return SUCCEEDED
   /\ _map_status "canceled" = Return CANCELED)
  /\ (exists s, _map_status raw = Return s)
  /\ (~ In raw known_status_literals -> _map_status raw = Return PENDING).
Proof.
  split; [repeat split; reflexivity |].
  split; [apply _map_status_returns |].
  intros Hnot.
  destruct (PaymentStatus_call_unknown raw Hnot) as [msg Hcall].
  unfold _map_status. rewrite Hcall.
  destruct (String.eqb_spec raw "waiting_for_capture") as [Heq | _]; [| reflexivity].
  exfalso. apply Hnot. rewrite Heq. cbn. tauto.
Qed.

Lemma map_status_total_failsafe_witness :
  ~ In "refunded" known_status_literals /\ _map_status "refunded" = Return PENDING.
Proof.
  assert (Hnot : ~ In "refunded" known_status_literals).
  { cbn. intros H. repeat (destruct H as [H | H]; [discriminate H |]). exact H. }
  split; [exact Hnot |].
  exact (proj2 (proj2 (map_status_total_failsafe "refunded")) Hnot).
Defined.

(** ** Traces *)

Lemma add_trace_nil {User : Type} (w : World User) : add_trace w [] = w.
Proof. destruct w as [ps us tr]. unfold add_trace. cbn. by rewrite app_nil_r. Qed.

Lemma add_trace_app {User : Type} (w : World User) (e1 e2 : list (Event User)) :
  add_trace (add_trace w e1) e2 = add_trace w (e1 ++ e2).
Proof. unfold add_trace. cbn. by rewrite app_assoc. Qed.

Lemma flip_char_changes (s : string) (i : nat) (old new : ascii) :
  list_ascii_of_string s !! i = Some old -> new <> old -> flip_char i new s <> s.
Proof.
  intros Hold Hne Heq.
  apply (f_equal list_ascii_of_string) in Heq.
  unfold flip_char in Heq. rewrite list_ascii_of_string_of_list_ascii in Heq.
  assert (Hi : i < length (list_ascii_of_string s)) by (eapply lookup_lt_Some; eauto).
  pose proof (list_lookup_insert_eq (list_ascii_of_string s) i new Hi) as Hnew.
  rewrite Heq, Hold in Hnew. congruence.
Qed.

Lemma one_char_flip_changes (s s' : string) : one_char_flip s s' -> s' <> s.
Proof.
  intros (i & old & new & Hold & Hne & ->). eapply flip_char_changes; eauto.
Qed.

Lemma compare_digest_true (a b : string) :
  compare_digest a b = Return true -> a = b.
Proof.
  unfold compare_digest. destruct (is_ascii_str a && is_ascii_str b); [| discriminate].
  intros [= Heq]. by apply String.eqb_eq.
Qed.

Lemma compare_digest_other (a b : string) :
  a <> b -> compare_digest a b = Return false \/ exists e, compare_digest a b = Raise e.
Proof.
  intros Hne. unfold compare_digest.
  destruct (is_ascii_str a && is_ascii_str b); [left | right; eauto].
  f_equal. by apply String.eqb_neq.
Qed.

(** ** The signature verifier *)

Section Verifier.

Context {User : Type}.
Variable settings : Settings.
Variable json_dumps : PyDictItems -> Result string.
Variable hmac_sha256_hexdigest : string -> string -> Result string.

Local Abbreviation verify :=
  (verify_webhook_signature (User := User) settings json_dumps hmac_sha256_hexdigest).

Ltac run_monad :=
  unfold bind, try_except, lift, ret, raise, log, emit; cbn.

(** Verification never raises, only logs, and its verdict and its log
    records do not depend on the world it runs in. *)
Lemma verify_webhook_signature_pure (payload : PyDictItems) (signature : string) :
  exists (verdict : bool) (logs : list (Event User)),
    forallb is_log logs = true
    /\ forall w, verify payload signature w = (Return verdict, add_trace w logs).
Proof.
  unfold verify_webhook_signature.
  destruct (negb (truthy_opt_str (yookassa_webhook_secret settings))).
  { exists true. eexists. split; [| intros w; run_monad; reflexivity]. reflexivity. }
  destruct (json_dumps payload) as [body | e1] eqn:Hbody.
  2:{ exists false. eexists.
      split; [| intros w; run_monad; rewrite ?Hbody; reflexivity]. reflexivity. }
  destruct (hmac_sha256_hexdigest (default EmptyString (yookassa_webhook_secret settings)) body)
    as [expected | e2] eqn:Hmac.
  2:{ exists false. eexists.
      split; [| intros w; run_monad; rewrite ?Hbody, ?Hmac; reflexivity]. reflexivity. }
  destruct (compare_digest expected signature) as [[|] | e3] eqn:Hcmp.
  - exists true, []. split; [reflexivity |]. intros w. run_monad.
    rewrite ?Hbody, ?Hmac, ?Hcmp. cbn. by rewrite add_trace_nil.
  - exists false. eexists.
    split; [| intros w; run_monad; rewrite ?Hbody, ?Hmac, ?Hcmp; reflexivity].
    reflexivity.
  - exists false. eexists.
    split; [| intros w; run_monad; rewrite ?Hbody, ?Hmac, ?Hcmp; reflexivity].
    reflexivity.
Qed.

(** C6, amended. Verification is deterministic: its verdict is the same in
    every world. When the webhook secret is configured, changing one
    character of a signature that verifies makes verification return false. *)
Theorem verify_deterministic_and_flip_rejected
  (payload : PyDictItems) (signature signature' : string) (w1 w2 : World User) :
  fst (verify payload signature w1) = fst (verify payload signature w2)
  /\ (truthy_opt_str (yookassa_webhook_secret settings) = true ->
      fst (verify payload signature w1) = Return true ->
      one_char_flip signature signature' ->
      fst (verify payload signature' w2) = Return false).
Proof.
  split.
  { destruct (verify_webhook_signature_pure payload signature) as (b & logs & _ & Hrun).
    by rewrite !Hrun. }
  intros Hsecret Hvalid Hflip. apply one_char_flip_changes in Hflip.
  revert Hvalid. unfold verify_webhook_signature. rewrite Hsecret. cbn [negb].
  run_monad.
  destruct (json_dumps payload) as [body | e1]; [| discriminate].
  destruct (hmac_sha256_hexdigest (default EmptyString (yookassa_webhook_secret settings)) body)
    as [expected | e2]; [| discriminate].
  destruct (compare_digest expected signature) as [[|] | e3] eqn:Hcmp;
    [| discriminate | discriminate].
  intros _. apply compare_digest_true in Hcmp. subst expected.
  destruct (compare_digest_other signature signature') as [Hc | [e Hc]];
    [congruence | |]; rewrite Hc; reflexivity.
Qed.

(** C7. With no webhook secret configured, verification returns true for
    every payload and every signature, after logging one warning. *)
Theorem verify_bypassed_when_secret_unconfigured
  (payload : PyDictItems) (signature : string) (w : World User) :
  truthy_opt_str (yookassa_webhook_secret settings) = false ->
  verify payload signature w
  = (Return true,
     add_trace w
       [Log WARNING "YooKassa webhook secret not configured, skipping verification"]).
Proof.
  intros Hsecret. unfold verify_webhook_signature. rewrite Hsecret. reflexivity.
Qed.

End Verifier.

(** ** The session's lookups *)

Lemma PaymentStatus_eqb_eq (a b : PaymentStatus) :
  PaymentStatus_eqb a b = true <-> a = b.
Proof. destruct a, b; cbn; split; intros H; congruence. Qed.

Lemma PaymentStatus_eqb_neq (a b : PaymentStatus) :
  PaymentStatus_eqb a b = false <-> a <> b.
Proof. destruct a, b; cbn; split; intros H; congruence. Qed.

Lemma lookup_payment_row (payment_id : string) (table : list Payment)
  (i : nat) (p : Payment) :
  lookup_payment payment_id table = Return (Some (i, p)) ->
  table !! i = Some p /\ yookassa_payment_id p = payment_id.
Proof.
  unfold lookup_payment, scalar_one_or_none.
  destruct (payments_where_id payment_id table) as [| r [| r' rest]] eqn:Hrows;
    intros [= ->].
  assert (Hin : In (i, p) (payments_where_id payment_id table))
    by (rewrite Hrows; left; reflexivity).
  unfold payments_where_id in Hin. apply filter_In in Hin as [Hin Hid].
  apply list_elem_of_In, elem_of_lookup_imap in Hin as (j & q & [= -> ->] & Hrow).
  split; [exact Hrow |]. by apply String.eqb_eq.
Qed.

Lemma reconciled_status (p : Payment) (s : PaymentStatus) (t : Z) (r : FindResponse) :
  status (reconciled p s t r) = s.
Proof. unfold reconciled. destruct (found_cancellation_details r); reflexivity. Qed.

(** ** Reconciliation *)

Section Reconciliation.

Context {User : Type}.
Variable User_id : User -> Z.

Local Abbreviation check := (check_payment User_id).

Ltac run_monad :=
  unfold bind, try_except, lift, ret, raise, log, emit, select_payment, select_user,
    gateway_find_one, gateway_create, user_service_upgrade_subscription,
    session_write, session_add, session_flush; cbn.

(** C1 for [check_payment]: a SUCCEEDED row is returned as it is and the
    world, trace included, is the one the call started from. *)
Lemma check_payment_succeeded (o : Env User) (payment_id : string) (w : World User)
  (i : nat) (p : Payment) :
  lookup_payment payment_id (payments w) = Return (Some (i, p)) ->
  status p = SUCCEEDED ->
  check o payment_id w = (Return p, w).
Proof.
  intros Hrow Hst. unfold check_payment. run_monad. rewrite Hrow. cbn.
  rewrite Hst. reflexivity.
Qed.

(** Everything [check_payment] can do to the payment table. *)
Lemma check_payment_outcome (o : Env User) (payment_id : string) (w : World User) :
  match check o payment_id w with
  | (Raise e, w') => payments w' = payments w
  | (Return p', w') =>
      (exists i, lookup_payment payment_id (payments w) = Return (Some (i, p'))
                 /\ status p' = SUCCEEDED /\ w' = w)
      \/ (exists i p response,
            lookup_payment payment_id (payments w) = Return (Some (i, p))
            /\ status p <> SUCCEEDED
            /\ YooPayment_find_one o payment_id = Return response
            /\ _map_status (found_status response) = Return (status p')
            /\ p' = reconciled p (status p') (now o) response
            /\ payments w' = <[i := p']> (payments w))
  end.
Proof.
  unfold check_payment. run_monad.
  destruct (lookup_payment payment_id (payments w)) as [[[i p] |] | e] eqn:Hrow;
    cbn; [| reflexivity | reflexivity].
  destruct (PaymentStatus_eqb (status p) SUCCEEDED) eqn:Hst; cbn.
  { left. exists i. apply PaymentStatus_eqb_eq in Hst. auto. }
  apply PaymentStatus_eqb_neq in Hst.
  destruct (YooPayment_find_one o payment_id) as [response | e] eqn:Hfind; cbn;
    [| reflexivity].
  destruct (_map_status_returns (found_status response)) as [new_status Hmap].
  rewrite Hmap. cbn.
  set (p' := reconciled p new_status (now o) response).
  assert (Hdone :
    exists i0 p0 response0,
      Return (Some (i, p)) = Return (Some (i0, p0))
      /\ status p0 <> SUCCEEDED
      /\ Return response = Return response0
      /\ _map_status (found_status response0) = Return (status p')
      /\ p' = reconciled p0 (status p') (now o) response0
      /\ <[i := p']> (payments w) = <[i0 := p']> (payments w)).
  { exists i, p, response. subst p'. rewrite reconciled_status. by repeat split. }
  destruct (PaymentStatus_eqb new_status SUCCEEDED); cbn; [| right; exact Hdone].
  destruct (lookup_user User_id (user_id p) (users w)) as [[u |] | e]; cbn;
    [| right; exact Hdone | reflexivity].
  destruct (SubscriptionTier_call (subscription_tier p)) as [tier | e]; cbn;
    [| reflexivity].
  destruct (upgrade_subscription o (users w) u tier 30) as [[[] | e] us]; cbn;
    [right; exact Hdone | reflexivity].
Qed.

(** C2, amended. For a row that is not SUCCEEDED, a fetched status that
    maps to SUCCEEDED and an existing user row: [check_payment] calls the
    grantor for 30 days at the row's tier after the fetch and before any
    write or flush; when the grantor raises, the exception leaves
    [check_payment] with the payment table as it was and nothing flushed;
    when it returns, the reconciled row is written and flushed. (A stored
    tier that names no tier raises before the grantor is called.) *)
Theorem grant_precedes_commit_and_failure_aborts
  (o : Env User) (payment_id : string) (w : World User)
  (i : nat) (p : Payment) (response : FindResponse) (u : User) :
  lookup_payment payment_id (payments w) = Return (Some (i, p)) ->
  status p <> SUCCEEDED ->
  YooPayment_find_one o payment_id = Return response ->
  _map_status (found_status response) = Return SUCCEEDED ->
  lookup_user User_id (user_id p) (users w) = Return (Some u) ->
  match SubscriptionTier_call (subscription_tier p) with
  | Raise e =>
      check o payment_id w = (Raise e, add_trace w [GatewayFindOne payment_id])
  | Return tier =>
      match upgrade_subscription o (users w) u tier 30 with
      | (Raise e, users') =>
          check o payment_id w
          = (Raise e,
             {| payments := payments w;
                users := users';
                trace := trace w ++ [GatewayFindOne payment_id; Grant u tier 30] |})
      | (Return _, users') =>
          let p' := reconciled p SUCCEEDED (now o) response in
          check o payment_id w
          = (Return p',
             {| payments := <[i := p']> (payments w);
                users := users';
                trace := trace w
                         ++ [GatewayFindOne payment_id; Grant u tier 30; Flush] |})
      end
  end.
Proof.
  intros Hrow Hst Hfind Hmap Huser.
  apply PaymentStatus_eqb_neq in Hst.
  unfold check_payment. run_monad. rewrite Hrow. cbn. rewrite Hst. cbn.
  rewrite Hfind. cbn. rewrite Hmap. cbn. rewrite Huser. cbn.
  destruct (SubscriptionTier_call (subscription_tier p)) as [tier | e]; cbn;
    [| reflexivity].
  destruct (upgrade_subscription o (users w) u tier 30) as [[[] | e] users']; cbn;
    rewrite <- !app_assoc; reflexivity.
Qed.

(** C10. For a row that is not SUCCEEDED and a fetched status that maps to
    SUCCEEDED, when no user row has the payment's [user_id]:
    [check_payment] returns without raising, calls the grantor not at all,
    and writes and flushes the row with status SUCCEEDED. *)
Theorem missing_user_commits_without_grant
  (o : Env User) (payment_id : string) (w : World User)
  (i : nat) (p : Payment) (response : FindResponse) :
  lookup_payment payment_id (payments w) = Return (Some (i, p)) ->
  status p <> SUCCEEDED ->
  YooPayment_find_one o payment_id = Return response ->
  _map_status (found_status response) = Return SUCCEEDED ->
  lookup_user User_id (user_id p) (users w) = Return None ->
  let p' := reconciled p SUCCEEDED (now o) response in
  check o payment_id w
  = (Return p',
     {| payments := <[i := p']> (payments w);
        users := users w;
        trace := trace w ++ [GatewayFindOne payment_id; Flush] |})
  /\ status p' = SUCCEEDED
  /\ <[i := p']> (payments w) !! i = Some p'
  /\ List.filter is_grant [GatewayFindOne (User := User) payment_id; Flush] = [].
Proof.
  intros Hrow Hst Hfind Hmap Huser p'.
  split; [| split; [apply reconciled_status | split; [| reflexivity]]].
  - apply PaymentStatus_eqb_neq in Hst.
    unfold check_payment. run_monad. rewrite Hrow. cbn. rewrite Hst. cbn.
    rewrite Hfind. cbn. rewrite Hmap. cbn. rewrite Huser. cbn.
    rewrite <- !app_assoc. reflexivity.
  - apply list_lookup_insert_eq. apply lookup_payment_row in Hrow as [Hrow _].
    eapply lookup_lt_Some; eauto.
Qed.

(** *** Webhooks *)

Variable settings : Settings.
Variable json_dumps : PyDictItems -> Result string.
Variable hmac_sha256_hexdigest : string -> string -> Result string.

Local Abbreviation verify :=
  (verify_webhook_signature (User := User) settings json_dumps hmac_sha256_hexdigest).
Local Abbreviation webhook :=
  (handle_webhook User_id settings json_dumps hmac_sha256_hexdigest).
Local Abbreviation delegate := (delegate User_id).
Local Abbreviation accepted :=
  (accepted (User := User) settings json_dumps hmac_sha256_hexdigest).

(** [handle_webhook] is its signature gate followed by [delegate]; the gate
    only logs. *)
Lemma handle_webhook_gate (o : Env User) (payload : PyDictItems)
  (signature : option string) :
  exists (rejected : bool) (logs : list (Event User)),
    forallb is_log logs = true
    /\ (accepted payload signature -> rejected = false)
    /\ forall w,
         webhook o payload signature w
         = if rejected
           then (Return None, add_trace w logs)
           else delegate o payload (add_trace w logs).
Proof.
  assert (Hopen : forall w,
    delegate o payload (add_trace w [webhook_info_log])
    = bind (lift (py_get (py_or (dict_get payload "object") (PyDict [])) "id"))
        (fun payment_id =>
           if negb (truthy payment_id) then ret None
           else try_except
                  (bind (check_payment_by_value User_id o payment_id)
                        (fun p => ret (Some p)))
                  (fun e => bind (log ERROR
                     "Error handling webhook for payment {payment_id}: {e}")
                     (fun _ => ret None)))
        (add_trace w [webhook_info_log])).
  { intros w. unfold delegate. run_monad.
    destruct (py_get _ "id") as [payment_id | e]; cbn; [| reflexivity].
    destruct (negb (truthy payment_id)); [reflexivity |].
    destruct (check_payment_by_value User_id o payment_id _) as [[p' | e] w']; reflexivity. }
  destruct signature as [s |].
  2:{ exists false, [webhook_info_log]. split; [reflexivity |]. split; [reflexivity |].
      intros w. rewrite Hopen. reflexivity. }
  destruct (truthy_opt_str (Some s)) eqn:Htruthy.
  2:{ exists false, [webhook_info_log]. split; [reflexivity |]. split; [reflexivity |].
      intros w. rewrite Hopen. unfold handle_webhook. rewrite Htruthy. reflexivity. }
  destruct (verify_webhook_signature_pure (User := User) settings json_dumps
              hmac_sha256_hexdigest payload s) as (verdict & logs & Hlogs & Hrun).
  destruct verdict.
  - exists false, (webhook_info_log :: logs). split; [exact Hlogs |]. split; [reflexivity |].
    intros w. unfold handle_webhook. rewrite Htruthy.
    unfold bind at 1. unfold log at 1, emit at 1. unfold bind at 1. unfold bind at 1.
    change {| payments := payments w; users := users w;
              trace := trace w ++ [Log INFO "Processing YooKassa webhook (v3.3 - Fixed)"] |}
      with (add_trace w [webhook_info_log]).
    rewrite Hrun. unfold ret at 1. cbn [negb]. rewrite add_trace_app. cbn [app].
    unfold delegate. run_monad.
    destruct (py_get _ "id") as [payment_id | e]; cbn; [| reflexivity].
    destruct (negb (truthy payment_id)); [reflexivity |].
    destruct (check_payment_by_value User_id o payment_id _) as [[p' | e] w']; reflexivity.
  - exists true, (webhook_info_log :: logs ++ [webhook_rejected_log]).
    split; [cbn; rewrite forallb_app, Hlogs; reflexivity |].
    split.
    { intros [Hfalse | (s' & [= <-] & Hvalid)]; [congruence |].
      specialize (Hvalid (add_trace (Build_World [] [] []) [])).
      rewrite Hrun in Hvalid. discriminate Hvalid. }
    intros w. unfold handle_webhook. rewrite Htruthy.
    unfold bind at 1. unfold log at 1, emit at 1. unfold bind at 1. unfold bind at 1.
    change {| payments := payments w; users := users w;
              trace := trace w ++ [Log INFO "Processing YooKassa webhook (v3.3 - Fixed)"] |}
      with (add_trace w [webhook_info_log]).
    rewrite Hrun. unfold ret at 1. cbn [negb]. run_monad.
    unfold add_trace. cbn. rewrite <- !app_assoc. reflexivity.
Qed.

Lemma is_log_not_a_call (logs : list (Event User)) :
  forallb is_log logs = true ->
  List.filter is_gateway_call logs = [] /\ List.filter is_grant logs = [].
Proof.
  induction logs as [| e logs IH]; [auto |].
  cbn. intros [He Hlogs]%andb_true_iff. destruct (IH Hlogs) as [IH1 IH2].
  destruct e; cbn in *; try discriminate; auto.
Qed.

Lemma delegate_to_check_payment (o : Env User) (payload event_object : PyDictItems)
  (payment_id : string) (w : World User) :
  dict_get payload "object" = PyDict event_object ->
  dict_get event_object "id" = PyStr payment_id ->
  payment_id <> EmptyString ->
  delegate o payload w
  = match check o payment_id w with
    | (Return p, w') => (Return (Some p), w')
    | (Raise e, w') => (Return None, add_trace w' [webhook_error_log])
    end.
Proof.
  intros Hobject Hid Hne. unfold delegate. rewrite Hobject.
  assert (Htruthy : truthy (PyDict event_object) = true).
  { destruct event_object; [discriminate Hid | reflexivity]. }
  unfold py_or. rewrite Htruthy. cbn [py_get]. rewrite Hid.
  cbn [truthy]. apply String.eqb_neq in Hne. rewrite Hne. reflexivity.
Qed.

(** C1. For a row whose status is SUCCEEDED, [check_payment] returns the
    row and leaves the world as it was (no gateway call, no grant, no
    write, no flush); [handle_webhook], when the signature is absent or
    verifies and the payload's [object.id] is the row's id, returns the
    same row, touches neither table and adds only log records to the
    trace: no gateway call and no grant. *)
Theorem succeeded_payment_short_circuits
  (o : Env User) (payment_id : string) (w : World User) (i : nat) (p : Payment)
  (payload event_object : PyDictItems) (signature : option string) :
  lookup_payment payment_id (payments w) = Return (Some (i, p)) ->
  status p = SUCCEEDED ->
  check o payment_id w = (Return p, w)
  /\ (accepted payload signature ->
      dict_get payload "object" = PyDict event_object ->
      dict_get event_object "id" = PyStr payment_id ->
      payment_id <> EmptyString ->
      exists logs,
        webhook o payload signature w = (Return (Some p), add_trace w logs)
        /\ List.filter is_gateway_call logs = []
        /\ List.filter is_grant logs = []
        /\ payments (add_trace w logs) = payments w
        /\ users (add_trace w logs) = users w).
Proof.
  intros Hrow Hst. split; [exact (check_payment_succeeded o payment_id w i p Hrow Hst) |].
  intros Hacc Hobject Hid Hne.
  destruct (handle_webhook_gate o payload signature)
    as (rejected & logs & Hlogs & Hrej & Hrun).
  rewrite (Hrej Hacc) in Hrun. exists logs.
  destruct (is_log_not_a_call logs Hlogs) as [Hgw Hgr].
  split; [| by repeat split].
  rewrite Hrun, (delegate_to_check_payment o payload event_object payment_id) by done.
  rewrite (check_payment_succeeded o payment_id (add_trace w logs) i p) by done.
  reflexivity.
Qed.

(** C5 fails on the code: a payload whose ["object"] is a non-empty string
    makes [handle_webhook] raise [AttributeError] to its caller, from the
    [event_object.get("id")] that stands outside the [try]. *)
Theorem handle_webhook_raises_on_string_object (o : Env User) (w : World User) :
  webhook o [("object", PyStr "payment")] None w
  = (Raise (AttributeError "object has no attribute 'get'"),
     add_trace w [webhook_info_log]).
Proof. reflexivity. Qed.

(** X20. Where the payload's ["object"] is absent, falsy or a dict,
    [handle_webhook] returns: [None] when the signature is rejected, when
    there is no [id] or when [check_payment] raises, and the payment that
    [check_payment] returns otherwise. *)
Lemma handle_webhook_returns_on_dict_object (o : Env User) (payload : PyDictItems)
  (signature : option string) (w : World User) (event_object : PyDictItems) :
  py_or (dict_get payload "object") (PyDict []) = PyDict event_object ->
  exists logs,
    forallb is_log logs = true
    /\ (webhook o payload signature w = (Return None, add_trace w logs)
        \/ (exists p w',
              check_payment_by_value User_id o (dict_get event_object "id")
                (add_trace w logs) = (Return p, w')
              /\ webhook o payload signature w = (Return (Some p), w'))
        \/ (exists e w',
              check_payment_by_value User_id o (dict_get event_object "id")
                (add_trace w logs) = (Raise e, w')
              /\ webhook o payload signature w
                 = (Return None, add_trace w' [webhook_error_log]))).
Proof.
  intros Hobject.
  destruct (handle_webhook_gate o payload signature)
    as (rejected & logs & Hlogs & _ & Hrun).
  exists logs. split; [exact Hlogs |]. rewrite Hrun.
  destruct rejected; [by left |].
  unfold delegate. rewrite Hobject. cbn [py_get].
  destruct (negb (truthy (dict_get event_object "id"))); [by left |].
  destruct (check_payment_by_value User_id o _ _) as [[p | e] w'].
  - right; left. by exists p, w'.
  - right; right. by exists e, w'.
Qed.

(** *** Terminal states *)

Lemma check_payment_keeps_succeeded (o : Env User) (payment_id : string)
  (w : World User) (j : nat) (q : Payment) :
  payments w !! j = Some q -> status q = SUCCEEDED ->
  payments (snd (check o payment_id w)) !! j = Some q.
Proof.
  intros Hq Hst. pose proof (check_payment_outcome o payment_id w) as Hout.
  destruct (check o payment_id w) as [[p' | e] w']; cbn.
  - destruct Hout as [(i & _ & _ & ->) | (i & p & r & Hrow & Hp & _ & _ & _ & ->)];
      [done |].
    apply lookup_payment_row in Hrow as [Hrow _].
    rewrite list_lookup_insert_ne; [done |]. intros ->. congruence.
  - by rewrite Hout.
Qed.

Lemma delegate_keeps_succeeded (o : Env User) (payload : PyDictItems)
  (w : World User) (j : nat) (q : Payment) :
  payments w !! j = Some q -> status q = SUCCEEDED ->
  payments (snd (delegate o payload w)) !! j = Some q.
Proof.
  intros Hq Hst. unfold delegate.
  destruct (py_get _ "id") as [payment_id | e]; [| done].
  destruct (negb (truthy payment_id)); [done |].
  assert (Hkeep : payments (snd (check_payment_by_value User_id o payment_id w)) !! j
                  = Some q).
  { destruct payment_id; try done. by apply check_payment_keeps_succeeded. }
  destruct (check_payment_by_value User_id o payment_id w) as [[p | e] w']; done.
Qed.

Lemma reconcile_keeps_succeeded (pass : Pass User) (w : World User)
  (j : nat) (q : Payment) :
  payments w !! j = Some q -> status q = SUCCEEDED ->
  payments (reconcile User_id settings json_dumps hmac_sha256_hexdigest pass w) !! j
  = Some q.
Proof.
  intros Hq Hst. destruct pass as [o payment_id | o payload signature]; unfold reconcile.
  - by apply check_payment_keeps_succeeded.
  - destruct (handle_webhook_gate o payload signature)
      as (rejected & logs & _ & _ & Hrun).
    rewrite Hrun. destruct rejected; [done |].
    by apply delegate_keeps_succeeded.
Qed.

(** C3, amended. SUCCEEDED is the one terminal status of reconciliation: a
    row whose status is SUCCEEDED is the same row after any sequence of
    [check_payment] and [handle_webhook] passes. A row whose status is
    CANCELED is fetched again like any row that is not SUCCEEDED: the pass
    either raises and leaves the table as it was, or writes the row with
    the status the fetched gateway status maps to, whatever it is. *)
Theorem succeeded_is_terminal_canceled_follows_gateway
  (passes : list (Pass User)) (o : Env User) (payment_id : string)
  (w : World User) (j : nat) (q : Payment) :
  payments w !! j = Some q ->
  (status q = SUCCEEDED ->
   payments (reconcile_all User_id settings json_dumps hmac_sha256_hexdigest passes w)
     !! j = Some q)
  /\ (status q = CANCELED ->
      lookup_payment payment_id (payments w) = Return (Some (j, q)) ->
      match check o payment_id w with
      | (Raise _, w') => payments w' = payments w
      | (Return q', w') =>
          exists response,
            YooPayment_find_one o payment_id = Return response
            /\ _map_status (found_status response) = Return (status q')
            /\ q' = reconciled q (status q') (now o) response
            /\ payments w' = <[j := q']> (payments w)
      end).
Proof.
  intros Hq. split.
  - intros Hst. revert w Hq. unfold reconcile_all.
    induction passes as [| pass passes IH]; intros w Hq; [exact Hq |].
    cbn. apply IH. by apply reconcile_keeps_succeeded.
  - intros Hst Hrow. pose proof (check_payment_outcome o payment_id w) as Hout.
    destruct (check o payment_id w) as [[q' | e] w']; [| exact Hout].
    destruct Hout as [(i & Hrow' & Hst' & _) | (i & p & r & Hrow' & _ & Hf & Hm & Hq' & Hw)].
    + rewrite Hrow in Hrow'. injection Hrow' as <- <-. congruence.
    + rewrite Hrow in Hrow'. injection Hrow' as <- <-. by exists r.
Qed.

(** *** Creation *)

(** C8. When the price of the tier is not positive, [create_payment]
    raises [ValueError] ("Invalid amount for tier ...") and leaves the world
    as it was: no gateway call, no row added, nothing flushed. *)
Theorem create_payment_rejects_nonpositive_price
  (o : Env User) (user : User) (tier : SubscriptionTier) (w : World User) :
  (_get_tier_price_rubles settings tier <= 0)%Z ->
  create_payment User_id settings o user tier w
  = (Raise (ValueError ("Invalid amount for tier " +:+ SubscriptionTier_value tier)), w).
Proof.
  intros Hprice. unfold create_payment.
  apply Z.leb_le in Hprice. rewrite Hprice. reflexivity.
Qed.

(** C9. For the tier PRO at the configured [pro_monthly_price], or ULTRA at
    the configured [ultra_monthly_price], when that price is positive and
    the gateway returns a response with a confirmation, [create_payment]
    returns and appends one row whose [amount] is that configured price in
    rubles times 100, whatever amount the response reports; whose [status]
    is the one the gateway reports ("pending" gives PENDING,
    "waiting_for_capture" gives WAITING_FOR_CAPTURE, "succeeded" gives
    SUCCEEDED, "canceled" gives CANCELED, any other string gives PENDING);
    and whose [confirmation_url] is the one of the response. *)
Theorem create_payment_amount_from_tier_price
  (o : Env User) (user : User) (tier : SubscriptionTier) (w : World User)
  (response : CreateResponse) (confirmation : Confirmation)
  (price : Z) (reported : PaymentStatus) :
  let request :=
    payment_payload User_id settings price (payment_description User_id user tier)
      user tier in
  (tier = PRO /\ price = pro_monthly_price settings)
  \/ (tier = ULTRA /\ price = ultra_monthly_price settings) ->
  (0 < price)%Z ->
  YooPayment_create o request (uuid4 o) = Return response ->
  created_confirmation response = Some confirmation ->
  (created_status response = "pending" /\ reported = PENDING)
  \/ (created_status response = "waiting_for_capture" /\ reported = WAITING_FOR_CAPTURE)
  \/ (created_status response = "succeeded" /\ reported = SUCCEEDED)
  \/ (created_status response = "canceled" /\ reported = CANCELED)
  \/ (~ In (created_status response) known_status_literals /\ reported = PENDING) ->
  exists p,
    create_payment User_id settings o user tier w
    = (Return p,
       {| payments := payments w ++ [p];
          users := users w;
          trace := trace w ++ [GatewayCreate request (uuid4 o); Flush] |})
    /\ amount p = (price * 100)%Z
    /\ status p = reported
    /\ _map_status (created_status response) = Return (status p)
    /\ confirmation_url p = conf_confirmation_url confirmation
    /\ yookassa_payment_id p = created_id response
    /\ subscription_tier p = SubscriptionTier_value tier
    /\ user_id p = User_id user.
Proof.
  intros request Htier Hprice Hcreate Hconf Hstatus.
  assert (Hrubles : _get_tier_price_rubles settings tier = price).
  { destruct Htier as [[-> ->] | [-> ->]]; reflexivity. }
  assert (Hmap : _map_status (created_status response) = Return reported).
  { destruct Hstatus as [[-> ->] | [[-> ->] | [[-> ->] | [[-> ->] | [Hnot ->]]]]];
      try reflexivity.
    by apply map_status_of_unknown. }
  eexists. split.
  - unfold create_payment. rewrite Hrubles.
    assert (Hleb : (price <=? 0)%Z = false) by (apply Z.leb_gt; exact Hprice).
    rewrite Hleb. fold request. run_monad. rewrite Hcreate. cbn.
    rewrite Hmap. cbn. rewrite Hconf. cbn. rewrite <- !app_assoc. reflexivity.
  - cbn. by repeat split.
Qed.

End Reconciliation.

(** ** The theorems at the concrete instance *)

Lemma succeeded_payment_short_circuits_witness :
  check_payment Example.User_id (Example.env "succeeded") "pay-1"
    (Example.world SUCCEEDED)
  = (Return (Example.payment SUCCEEDED), Example.world SUCCEEDED)
  /\ exists logs,
       handle_webhook Example.User_id Example.settings Example.json_dumps
         Example.hmac_sha256_hexdigest (Example.env "succeeded")
         Example.payload (Some "whsec{}") (Example.world SUCCEEDED)
       = (Return (Some (Example.payment SUCCEEDED)),
          add_trace (Example.world SUCCEEDED) logs)
       /\ List.filter is_gateway_call logs = []
       /\ List.filter is_grant logs = []
       /\ payments (add_trace (Example.world SUCCEEDED) logs)
          = payments (Example.world SUCCEEDED)
       /\ users (add_trace (Example.world SUCCEEDED) logs)
          = users (Example.world SUCCEEDED).
Proof.
  destruct (succeeded_payment_short_circuits Example.User_id Example.settings
              Example.json_dumps Example.hmac_sha256_hexdigest
              (Example.env "succeeded") "pay-1" (Example.world SUCCEEDED) 0
              (Example.payment SUCCEEDED) Example.payload
              [("id", PyStr "pay-1"); ("status", PyStr "succeeded")]
              (Some "whsec{}") eq_refl eq_refl) as [Hcheck Hhook].
  split; [exact Hcheck |]. apply Hhook.
  - right. exists "whsec{}". split; [reflexivity |]. intros w. reflexivity.
  - reflexivity.
  - reflexivity.
  - discriminate.
Defined.

Lemma grant_precedes_commit_and_failure_aborts_witness :
  check_payment Example.User_id (Example.env_grant_fails "succeeded") "pay-1"
    (Example.world PENDING)
  = (Raise (ExternalError "grant failed"),
     {| payments := [Example.payment PENDING];
        users := [7%Z];
        trace := [GatewayFindOne "pay-1"; Grant 7%Z PRO 30] |}).
Proof.
  assert (Hst : status (Example.payment PENDING) <> SUCCEEDED) by discriminate.
  exact (grant_precedes_commit_and_failure_aborts Example.User_id
           (Example.env_grant_fails "succeeded") "pay-1" (Example.world PENDING) 0
           (Example.payment PENDING) (Example.found "succeeded") 7%Z
           eq_refl Hst eq_refl eq_refl eq_refl).
Defined.

Lemma succeeded_is_terminal_canceled_follows_gateway_witness :
  payments
    (reconcile_all Example.User_id Example.settings Example.json_dumps
       Example.hmac_sha256_hexdigest
       [CheckPayment (Example.env "canceled") "pay-1";
        HandleWebhook (Example.env "pending") Example.payload None]
       (Example.world SUCCEEDED)) !! 0
  = Some (Example.payment SUCCEEDED)
  /\ exists q',
       check_payment Example.User_id (Example.env "canceled") "pay-1"
         (Example.world CANCELED)
       = (Return q', {| payments := [q']; users := [7%Z];
                        trace := [GatewayFindOne "pay-1"; Flush] |})
       /\ exists response,
            YooPayment_find_one (Example.env "canceled") "pay-1" = Return response
            /\ _map_status (found_status response) = Return (status q')
            /\ q' = reconciled (Example.payment CANCELED) (status q')
                      (now (Example.env "canceled")) response
            /\ [q'] = <[0 := q']> (payments (Example.world CANCELED)).
Proof.
  split.
  - exact (proj1 (succeeded_is_terminal_canceled_follows_gateway Example.User_id
                    Example.settings Example.json_dumps Example.hmac_sha256_hexdigest
                    [CheckPayment (Example.env "canceled") "pay-1";
                     HandleWebhook (Example.env "pending") Example.payload None]
                    (Example.env "canceled") "pay-1" (Example.world SUCCEEDED) 0
                    (Example.payment SUCCEEDED) eq_refl) eq_refl).
  - exists (reconciled (Example.payment CANCELED) CANCELED 1700000000
              (Example.found "canceled")).
    split; [reflexivity |].
    exact (proj2 (succeeded_is_terminal_canceled_follows_gateway Example.User_id
                    Example.settings Example.json_dumps Example.hmac_sha256_hexdigest
                    [] (Example.env "canceled") "pay-1" (Example.world CANCELED) 0
                    (Example.payment CANCELED) eq_refl) eq_refl eq_refl).
Defined.

Lemma verify_deterministic_and_flip_rejected_witness :
  fst (verify_webhook_signature Example.settings Example.json_dumps
         Example.hmac_sha256_hexdigest Example.payload "whsec{}"
         (Example.world PENDING)) = Return true
  /\ one_char_flip "whsec{}" "whsec{]"
  /\ fst (verify_webhook_signature Example.settings Example.json_dumps
            Example.hmac_sha256_hexdigest Example.payload "whsec{]"
            Example.empty_world) = Return false.
Proof.
  assert (Hflip : one_char_flip "whsec{}" "whsec{]").
  { exists 6, "}"%char, "]"%char. split; [reflexivity |]. split; [discriminate | reflexivity]. }
  split; [reflexivity |]. split; [exact Hflip |].
  exact (proj2 (verify_deterministic_and_flip_rejected Example.settings
                  Example.json_dumps Example.hmac_sha256_hexdigest Example.payload
                  "whsec{}" "whsec{]" (Example.world PENDING) Example.empty_world)
           eq_refl eq_refl Hflip).
Defined.

Lemma verify_bypassed_when_secret_unconfigured_witness :
  verify_webhook_signature Example.settings_no_secret Example.json_dumps
    Example.hmac_sha256_hexdigest Example.payload "not-a-signature"
    (Example.world PENDING)
  = (Return true,
     add_trace (Example.world PENDING)
       [Log WARNING "YooKassa webhook secret not configured, skipping verification"]).
Proof.
  exact (verify_bypassed_when_secret_unconfigured Example.settings_no_secret
           Example.json_dumps Example.hmac_sha256_hexdigest Example.payload
           "not-a-signature" (Example.world PENDING) eq_refl).
Defined.

Lemma create_payment_rejects_nonpositive_price_witness :
  create_payment Example.User_id Example.settings (Example.env "pending") 7%Z FREE
    Example.empty_world
  = (Raise (ValueError "Invalid amount for tier free"), Example.empty_world).
Proof.
  assert (Hprice : (_get_tier_price_rubles Example.settings FREE <= 0)%Z)
    by (cbn; lia).
  exact (create_payment_rejects_nonpositive_price Example.User_id Example.settings
           (Example.env "pending") 7%Z FREE Example.empty_world Hprice).
Defined.

Lemma create_payment_amount_from_tier_price_witness :
  (exists p,
     create_payment Example.User_id Example.settings (Example.env "pending") 7%Z PRO
       Example.empty_world
     = (Return p,
        {| payments := [p];
           users := [7%Z];
           trace :=
             [GatewayCreate
                (payment_payload Example.User_id Example.settings 500
                   (payment_description Example.User_id 7%Z PRO) 7%Z PRO)
                "idem-1";
              Flush] |})
     /\ amount p = 50000%Z
     /\ status p = PENDING
     /\ _map_status "pending" = Return (status p)
     /\ confirmation_url p = Some "https://yoomoney.example/confirm"
     /\ yookassa_payment_id p = "pay-1"
     /\ subscription_tier p = "pro"
     /\ user_id p = 7%Z)
  /\ (exists p,
        create_payment Example.User_id Example.settings (Example.env "succeeded") 7%Z
          ULTRA Example.empty_world
        = (Return p,
           {| payments := [p];
              users := [7%Z];
              trace :=
                [GatewayCreate
                   (payment_payload Example.User_id Example.settings 900
                      (payment_description Example.User_id 7%Z ULTRA) 7%Z ULTRA)
                   "idem-1";
                 Flush] |})
        /\ amount p = 90000%Z
        /\ status p = SUCCEEDED
        /\ _map_status "succeeded" = Return (status p)
        /\ confirmation_url p = Some "https://yoomoney.example/confirm"
        /\ yookassa_payment_id p = "pay-1"
        /\ subscription_tier p = "ultra"
        /\ user_id p = 7%Z).
Proof.
  assert (Hpro : (0 < 500)%Z) by lia.
  assert (Hultra : (0 < 900)%Z) by lia.
  split.
  - exact (create_payment_amount_from_tier_price Example.User_id Example.settings
             (Example.env "pending") 7%Z PRO Example.empty_world
             (Example.created "pending")
             {| conf_confirmation_url := Some "https://yoomoney.example/confirm" |}
             500%Z PENDING
             (or_introl (conj eq_refl eq_refl)) Hpro eq_refl eq_refl
             (or_introl (conj eq_refl eq_refl))).
  - exact (create_payment_amount_from_tier_price Example.User_id Example.settings
             (Example.env "succeeded") 7%Z ULTRA Example.empty_world
             (Example.created "succeeded")
             {| conf_confirmation_url := Some "https://yoomoney.example/confirm" |}
             900%Z SUCCEEDED
             (or_intror (conj eq_refl eq_refl)) Hultra eq_refl eq_refl
             (or_intror (or_intror (or_introl (conj eq_refl eq_refl))))).
Defined.

Lemma missing_user_commits_without_grant_witness :
  check_payment Example.User_id (Example.env "succeeded") "pay-1"
    (Example.world_without_user WAITING_FOR_CAPTURE)
  = (Return (reconciled (Example.payment WAITING_FOR_CAPTURE) SUCCEEDED 1700000000
               (Example.found "succeeded")),
     {| payments := [reconciled (Example.payment WAITING_FOR_CAPTURE) SUCCEEDED
                       1700000000 (Example.found "succeeded")];
        users := [];
        trace := [GatewayFindOne "pay-1"; Flush] |}).
Proof.
  assert (Hst : status (Example.payment WAITING_FOR_CAPTURE) <> SUCCEEDED)
    by discriminate.
  exact (proj1 (missing_user_commits_without_grant Example.User_id
                  (Example.env "succeeded") "pay-1"
                  (Example.world_without_user WAITING_FOR_CAPTURE) 0
                  (Example.payment WAITING_FOR_CAPTURE) (Example.found "succeeded")
                  eq_refl Hst eq_refl eq_refl eq_refl)).
Defined.

(** ** Where the code departs from a claim as stated *)

(** C2 as stated fails: the fetched status maps to SUCCEEDED, the local
    status is PENDING, the payment's user has no row; [check_payment]
    commits SUCCEEDED and the grantor is never called. *)
Lemma status_committed_though_grant_skipped :
  let w := Example.world_without_user PENDING in
  let w' := snd (check_payment Example.User_id (Example.env "succeeded") "pay-1" w) in
  status <$> payments w !! 0 = Some PENDING
  /\ _map_status "succeeded" = Return SUCCEEDED
  /\ status <$> payments w' !! 0 = Some SUCCEEDED
  /\ trace w' = [GatewayFindOne "pay-1"; Flush]
  /\ List.filter is_grant (trace w') = [].
Proof. repeat split; reflexivity. Qed.

(** C3 as stated fails: a CANCELED payment for which the gateway reports
    "pending" is PENDING after one [check_payment] pass. *)
Lemma canceled_payment_leaves_canceled :
  let w := Example.world CANCELED in
  let w' := reconcile Example.User_id Example.settings Example.json_dumps
              Example.hmac_sha256_hexdigest
              (CheckPayment (Example.env "pending") "pay-1") w in
  status <$> payments w !! 0 = Some CANCELED
  /\ status <$> payments w' !! 0 = Some PENDING.
Proof. split; reflexivity. Qed.

(** C6 as stated fails for the empty secret: every signature verifies, so
    a signature that verifies still verifies after one character is
    changed. *)
Lemma flipped_signature_verifies_without_secret :
  fst (verify_webhook_signature Example.settings_no_secret Example.json_dumps
         Example.hmac_sha256_hexdigest Example.payload "whsec{}"
         Example.empty_world) = Return true
  /\ one_char_flip "whsec{}" "whsec{]"
  /\ fst (verify_webhook_signature Example.settings_no_secret Example.json_dumps
            Example.hmac_sha256_hexdigest Example.payload "whsec{]"
            Example.empty_world) = Return true.
Proof.
  split; [reflexivity |]. split; [| reflexivity].
  exists 6, "}"%char, "]"%char. split; [reflexivity |]. split; [discriminate | reflexivity].
Qed.

(** * Further properties *)

(** ** Lookups by gateway id *)

Lemma payments_where_id_offset (payment_id : string) (table : list Payment) (k : nat) :
  List.filter (fun r => String.eqb (yookassa_payment_id (snd r)) payment_id)
              (imap (fun j p => (k + j, p)) table)
  = rows_from payment_id k table.
Proof.
  revert k. induction table as [| p rest IH]; intros k; [reflexivity |].
  cbn [imap rows_from List.filter snd].
  rewrite (imap_ext _ (fun j q => (S k + j, q))), IH, Nat.add_0_r.
  - reflexivity.
  - intros j q _. cbn. f_equal. lia.
Qed.

Lemma payments_where_id_rows (payment_id : string) (table : list Payment) :
  payments_where_id payment_id table = rows_from payment_id 0 table.
Proof. exact (payments_where_id_offset payment_id table 0). Qed.

Lemma rows_from_none (payment_id : string) (k : nat) (table : list Payment) :
  Forall (fun p => yookassa_payment_id p <> payment_id) table ->
  rows_from payment_id k table = [].
Proof.
  intros Hall. revert k. induction Hall as [| p rest Hp _ IH]; intros k; [reflexivity |].
  cbn. apply String.eqb_neq in Hp. rewrite Hp. apply IH.
Qed.

Lemma rows_from_app (payment_id : string) (k : nat) (table : list Payment) (p : Payment) :
  rows_from payment_id k (table ++ [p])
  = rows_from payment_id k table
    ++ (if String.eqb (yookassa_payment_id p) payment_id
        then [(k + length table, p)] else []).
Proof.
  revert k. induction table as [| q rest IH]; intros k; cbn.
  - rewrite Nat.add_0_r. reflexivity.
  - rewrite IH, <- Nat.add_succ_comm.
    destruct (String.eqb (yookassa_payment_id q) payment_id); reflexivity.
Qed.

Lemma rows_from_ge (payment_id : string) (table : list Payment) (k : nat) :
  Forall (fun r => k <= fst r) (rows_from payment_id k table).
Proof.
  revert k. induction table as [| p rest IH]; intros k; cbn; [constructor |].
  assert (Hrest : Forall (fun r => k <= fst r) (rows_from payment_id (S k) rest)).
  { eapply Forall_impl; [apply IH |]. cbn. intros; lia. }
  destruct (String.eqb (yookassa_payment_id p) payment_id); [| exact Hrest].
  constructor; [cbn; lia | exact Hrest].
Qed.

Lemma rows_from_insert (payment_id : string) (table : list Payment)
  (k i : nat) (p p' : Payment) :
  table !! i = Some p ->
  rows_from payment_id k table = [(k + i, p)] ->
  yookassa_payment_id p' = payment_id ->
  rows_from payment_id k (<[i := p']> table) = [(k + i, p')].
Proof.
  revert k i. induction table as [| q rest IH]; intros k i Hrow Hrows Hid; [done |].
  destruct i as [| i]; cbn in *.
  - injection Hrow as ->. rewrite Nat.add_0_r in *.
    apply String.eqb_eq in Hid. rewrite Hid.
    destruct (String.eqb (yookassa_payment_id p) payment_id).
    + injection Hrows as ->. reflexivity.
    + exfalso. pose proof (rows_from_ge payment_id rest (S k)) as Hge.
      rewrite Hrows in Hge. apply Forall_cons in Hge as [Hge _]. cbn in Hge. lia.
  - destruct (String.eqb (yookassa_payment_id q) payment_id).
    + injection Hrows as Hk _. lia.
    + rewrite <- Nat.add_succ_comm in Hrows |- *. by apply IH.
Qed.

Lemma lookup_payment_rows (payment_id : string) (table : list Payment)
  (i : nat) (p : Payment) :
  lookup_payment payment_id table = Return (Some (i, p)) ->
  rows_from payment_id 0 table = [(i, p)].
Proof.
  unfold lookup_payment, scalar_one_or_none. rewrite payments_where_id_rows.
  destruct (rows_from payment_id 0 table) as [| r [| r' rest]]; intros [= ->].
  reflexivity.
Qed.

Lemma lookup_payment_absent (payment_id : string) (table : list Payment) :
  Forall (fun p => yookassa_payment_id p <> payment_id) table ->
  lookup_payment payment_id table = Return None.
Proof.
  intros Hall. unfold lookup_payment.
  by rewrite payments_where_id_rows, rows_from_none.
Qed.

Lemma lookup_payment_insert (payment_id : string) (table : list Payment)
  (i : nat) (p p' : Payment) :
  lookup_payment payment_id table = Return (Some (i, p)) ->
  yookassa_payment_id p' = payment_id ->
  lookup_payment payment_id (<[i := p']> table) = Return (Some (i, p')).
Proof.
  intros Hrow Hid.
  pose proof (lookup_payment_rows _ _ _ _ Hrow) as Hrows.
  apply lookup_payment_row in Hrow as [Hrow _].
  unfold lookup_payment. rewrite payments_where_id_rows.
  by rewrite (rows_from_insert payment_id table 0 i p p').
Qed.

Lemma lookup_payment_appended (payment_id : string) (table : list Payment) (p : Payment) :
  Forall (fun q => yookassa_payment_id q <> payment_id) table ->
  yookassa_payment_id p = payment_id ->
  lookup_payment payment_id (table ++ [p]) = Return (Some (length table, p)).
Proof.
  intros Hall Hid. unfold lookup_payment.
  rewrite payments_where_id_rows, rows_from_app, rows_from_none by done.
  apply String.eqb_eq in Hid. rewrite Hid. reflexivity.
Qed.

Lemma reconciled_fixed_columns (p : Payment) (s : PaymentStatus) (t : Z)
  (r : FindResponse) :
  same_fixed_columns p (reconciled p s t r).
Proof.
  unfold same_fixed_columns, reconciled.
  destruct (found_cancellation_details r); by repeat split.
Qed.

Lemma same_fixed_columns_refl (p : Payment) : same_fixed_columns p p.
Proof. by repeat split. Qed.

Lemma same_fixed_columns_trans (p q r : Payment) :
  same_fixed_columns p q -> same_fixed_columns q r -> same_fixed_columns p r.
Proof.
  unfold same_fixed_columns. intros (? & ? & ? & ? & ? & ?) (? & ? & ? & ? & ? & ?).
  repeat split; congruence.
Qed.

(** ** More on reconciliation *)

Section MoreReconciliation.

Context {User : Type}.
Variable User_id : User -> Z.

Local Abbreviation check := (check_payment User_id).

Ltac run_monad :=
  unfold bind, try_except, lift, ret, raise, log, emit, select_payment, select_user,
    gateway_find_one, gateway_create, user_service_upgrade_subscription,
    session_write, session_add, session_flush; cbn.

(** X1. When no row of the payment table has the given gateway id,
    [check_payment] raises [ValueError] ("Payment not found") and the world
    is as it was: the gateway is not asked. *)
Theorem check_payment_unknown_id_raises
  (o : Env User) (payment_id : string) (w : World User) :
  Forall (fun p => yookassa_payment_id p <> payment_id) (payments w) ->
  check o payment_id w = (Raise (ValueError "Payment not found"), w).
Proof.
  intros Hall. unfold check_payment. run_monad.
  rewrite (lookup_payment_absent _ _ Hall). reflexivity.
Qed.

(** X2. When the gateway query raises for a row that is not SUCCEEDED,
    [check_payment] raises the same exception after logging an error; both
    tables are as they were and nothing is flushed. *)
Theorem check_payment_gateway_failure_propagates
  (o : Env User) (payment_id : string) (w : World User)
  (i : nat) (p : Payment) (e : Exception) :
  lookup_payment payment_id (payments w) = Return (Some (i, p)) ->
  status p <> SUCCEEDED ->
  YooPayment_find_one o payment_id = Raise e ->
  check o payment_id w
  = (Raise e,
     add_trace w [GatewayFindOne payment_id;
                  Log ERROR "Failed to check YooKassa payment"]).
Proof.
  intros Hrow Hst Hfind. apply PaymentStatus_eqb_neq in Hst.
  unfold check_payment. run_monad. rewrite Hrow. cbn. rewrite Hst. cbn.
  rewrite Hfind. cbn. unfold add_trace. cbn. rewrite <- !app_assoc. reflexivity.
Qed.

(** X3. When the fetched status maps to a status other than SUCCEEDED,
    [check_payment] calls no grantor and leaves the user table alone; it
    writes and flushes the row with the mapped status, [processed_at] set
    to the current time, and [error_message] set to the gateway's
    cancellation reason, or cleared when the response has no cancellation
    details. *)
Theorem check_payment_records_unsuccessful_status
  (o : Env User) (payment_id : string) (w : World User)
  (i : nat) (p : Payment) (response : FindResponse) (s : PaymentStatus) :
  lookup_payment payment_id (payments w) = Return (Some (i, p)) ->
  status p <> SUCCEEDED ->
  YooPayment_find_one o payment_id = Return response ->
  _map_status (found_status response) = Return s ->
  s <> SUCCEEDED ->
  let p' := reconciled p s (now o) response in
  check o payment_id w
  = (Return p',
     {| payments := <[i := p']> (payments w);
        users := users w;
        trace := trace w ++ [GatewayFindOne payment_id; Flush] |})
  /\ status p' = s
  /\ processed_at p' = Some (now o)
  /\ error_message p'
     = match found_cancellation_details response with
       | Some details => reason details
       | None => None
       end.
Proof.
  intros Hrow Hst Hfind Hmap Hs p'.
  apply PaymentStatus_eqb_neq in Hst. apply PaymentStatus_eqb_neq in Hs.
  split.
  - unfold check_payment. run_monad. rewrite Hrow. cbn. rewrite Hst. cbn.
    rewrite Hfind. cbn. rewrite Hmap. cbn. rewrite Hs. cbn.
    rewrite <- !app_assoc. reflexivity.
  - subst p'. unfold reconciled.
    destruct (found_cancellation_details response); by repeat split.
Qed.

(** X5. Once [check_payment] has returned a payment whose status is
    SUCCEEDED, a second [check_payment] for the same id, whatever the
    gateway and the grantor would now answer, returns the same payment and
    leaves the world as the first call left it: no second gateway query and
    no second grant. *)
Theorem check_payment_idempotent_after_success
  (o1 o2 : Env User) (payment_id : string) (w w1 : World User) (p : Payment) :
  check o1 payment_id w = (Return p, w1) ->
  status p = SUCCEEDED ->
  check o2 payment_id w1 = (Return p, w1).
Proof.
  intros Hfirst Hst.
  pose proof (check_payment_outcome User_id o1 payment_id w) as Hout.
  rewrite Hfirst in Hout.
  destruct Hout as [(i & Hrow & _ & ->) | (i & q & r & Hrow & _ & _ & _ & Hp & Hw)].
  - by apply (check_payment_succeeded User_id o2 payment_id w i p).
  - apply (check_payment_succeeded User_id o2 payment_id w1 i p); [| done].
    rewrite Hw. apply (lookup_payment_insert payment_id (payments w) i q p Hrow).
    apply lookup_payment_row in Hrow as [_ Hid].
    destruct (reconciled_fixed_columns q (status p) (now o1) r) as (_ & Hsame & _).
    rewrite Hp. congruence.
Qed.

Lemma check_payment_rows (o : Env User) (payment_id : string) (w : World User)
  (j : nat) (q : Payment) :
  payments w !! j = Some q ->
  length (payments (snd (check o payment_id w))) = length (payments w)
  /\ exists q',
       payments (snd (check o payment_id w)) !! j = Some q'
       /\ same_fixed_columns q q'
       /\ (yookassa_payment_id q <> payment_id -> q' = q).
Proof.
  intros Hq. pose proof (check_payment_outcome User_id o payment_id w) as Hout.
  destruct (check o payment_id w) as [[p' | e] w']; cbn.
  - destruct Hout as [(i & _ & _ & ->) | (i & p & r & Hrow & _ & _ & _ & Hp & ->)].
    { split; [done |]. exists q. auto using same_fixed_columns_refl. }
    rewrite length_insert. split; [done |].
    apply lookup_payment_row in Hrow as [Hrow Hid].
    destruct (decide (j = i)) as [-> | Hne].
    + exists p'. rewrite list_lookup_insert_eq by (eapply lookup_lt_Some; eauto).
      assert (q = p) as -> by congruence.
      split; [done |]. split; [| congruence].
      rewrite Hp. apply reconciled_fixed_columns.
    + exists q. rewrite list_lookup_insert_ne by done.
      auto using same_fixed_columns_refl.
  - rewrite Hout. split; [done |]. exists q. auto using same_fixed_columns_refl.
Qed.

(** X4. [check_payment] for one gateway id leaves every row with another
    gateway id exactly as it was, at the same position. *)
Theorem check_payment_leaves_other_payments
  (o : Env User) (payment_id : string) (w : World User) (j : nat) (q : Payment) :
  payments w !! j = Some q ->
  yookassa_payment_id q <> payment_id ->
  payments (snd (check o payment_id w)) !! j = Some q.
Proof.
  intros Hq Hne.
  destruct (check_payment_rows o payment_id w j q Hq) as (_ & q' & Hq' & _ & Hsame).
  by rewrite Hq', (Hsame Hne).
Qed.

(** X6. One call of [check_payment] queries the gateway at most once and
    calls the grantor at most once. It calls the grantor only when the row
    was not SUCCEEDED, the fetched status maps to SUCCEEDED and the user
    row exists; when it does not call the grantor, the user table is as it
    was. *)
Theorem check_payment_grants_only_on_new_success
  (o : Env User) (payment_id : string) (w : World User) :
  exists events,
    trace (snd (check o payment_id w)) = trace w ++ events
    /\ length (List.filter is_gateway_call events) <= 1
    /\ length (List.filter is_grant events) <= 1
    /\ (List.filter is_grant events = [] ->
        users (snd (check o payment_id w)) = users w)
    /\ (List.filter is_grant events <> [] ->
        exists i p response u,
          lookup_payment payment_id (payments w) = Return (Some (i, p))
          /\ status p <> SUCCEEDED
          /\ YooPayment_find_one o payment_id = Return response
          /\ _map_status (found_status response) = Return SUCCEEDED
          /\ lookup_user User_id (user_id p) (users w) = Return (Some u)).
Proof.
  assert (Hnil : forall w' : World User, w' = w ->
    exists events,
      trace w' = trace w ++ events
      /\ length (List.filter is_gateway_call events) <= 1
      /\ length (List.filter is_grant events) <= 1
      /\ (List.filter is_grant events = [] -> users w' = users w)
      /\ (List.filter is_grant events <> [] ->
          exists i p response u,
            lookup_payment payment_id (payments w) = Return (Some (i, p))
            /\ status p <> SUCCEEDED
            /\ YooPayment_find_one o payment_id = Return response
            /\ _map_status (found_status response) = Return SUCCEEDED
            /\ lookup_user User_id (user_id p) (users w) = Return (Some u))).
  { intros w' ->. exists []. rewrite app_nil_r. cbn. repeat split; try lia; done. }
  unfold check_payment. run_monad.
  destruct (lookup_payment payment_id (payments w)) as [[[i p] |] | e] eqn:Hrow;
    cbn; [| by apply Hnil | by apply Hnil].
  destruct (PaymentStatus_eqb (status p) SUCCEEDED) eqn:Hst; cbn; [by apply Hnil |].
  apply PaymentStatus_eqb_neq in Hst.
  destruct (YooPayment_find_one o payment_id) as [response | e] eqn:Hfind; cbn.
  2:{ eexists. split; [rewrite <- !app_assoc; reflexivity |].
      cbn. repeat split; try lia; done. }
  destruct (_map_status_returns (found_status response)) as [new_status Hmap].
  rewrite Hmap. cbn.
  destruct (PaymentStatus_eqb new_status SUCCEEDED) eqn:Hnew; cbn.
  2:{ eexists. split; [rewrite <- !app_assoc; reflexivity |].
      cbn. repeat split; try lia; done. }
  apply PaymentStatus_eqb_eq in Hnew. subst new_status.
  destruct (lookup_user User_id (user_id p) (users w)) as [[u |] | e] eqn:Huser; cbn.
  - destruct (SubscriptionTier_call (subscription_tier p)) as [tier | e]; cbn.
    + destruct (upgrade_subscription o (users w) u tier 30) as [[[] | e] us]; cbn.
      * eexists. split; [rewrite <- !app_assoc; reflexivity |].
        cbn. repeat split; try lia; try done.
        intros _. by exists i, p, response, u.
      * eexists. split; [rewrite <- !app_assoc; reflexivity |].
        cbn. repeat split; try lia; try done.
        intros _. by exists i, p, response, u.
    + eexists. split; [reflexivity |]. cbn. repeat split; try lia; done.
  - eexists. split; [rewrite <- !app_assoc; reflexivity |].
    cbn. repeat split; try lia; done.
  - eexists. split; [reflexivity |]. cbn. repeat split; try lia; done.
Qed.

(** *** Sequences of passes *)

Variable settings : Settings.
Variable json_dumps : PyDictItems -> Result string.
Variable hmac_sha256_hexdigest : string -> string -> Result string.

Local Abbreviation verify :=
  (verify_webhook_signature (User := User) settings json_dumps hmac_sha256_hexdigest).
Local Abbreviation webhook :=
  (handle_webhook User_id settings json_dumps hmac_sha256_hexdigest).
Local Abbreviation run_pass :=
  (reconcile User_id settings json_dumps hmac_sha256_hexdigest).
Local Abbreviation run_passes :=
  (reconcile_all User_id settings json_dumps hmac_sha256_hexdigest).

Lemma delegate_rows (o : Env User) (payload : PyDictItems) (w : World User)
  (j : nat) (q : Payment) :
  payments w !! j = Some q ->
  length (payments (snd (delegate User_id o payload w))) = length (payments w)
  /\ exists q',
       payments (snd (delegate User_id o payload w)) !! j = Some q'
       /\ same_fixed_columns q q'.
Proof.
  intros Hq.
  assert (Hsame : length (payments w) = length (payments w)
                  /\ exists q', payments w !! j = Some q' /\ same_fixed_columns q q').
  { split; [done |]. exists q. auto using same_fixed_columns_refl. }
  unfold delegate.
  destruct (py_get _ "id") as [payment_id | e]; [| exact Hsame].
  destruct (negb (truthy payment_id)); [exact Hsame |].
  assert (Hcheck :
    length (payments (snd (check_payment_by_value User_id o payment_id w)))
    = length (payments w)
    /\ exists q',
         payments (snd (check_payment_by_value User_id o payment_id w)) !! j = Some q'
         /\ same_fixed_columns q q').
  { destruct payment_id; try exact Hsame. cbn [check_payment_by_value].
    destruct (check_payment_rows o s w j q Hq) as (Hlen & q' & Hq' & Hcols & _).
    eauto. }
  destruct (check_payment_by_value User_id o payment_id w) as [[p | e] w']; exact Hcheck.
Qed.

Lemma reconcile_rows (pass : Pass User) (w : World User) (j : nat) (q : Payment) :
  payments w !! j = Some q ->
  length (payments (run_pass pass w)) = length (payments w)
  /\ exists q', payments (run_pass pass w) !! j = Some q' /\ same_fixed_columns q q'.
Proof.
  intros Hq. destruct pass as [o payment_id | o payload signature]; unfold reconcile.
  - destruct (check_payment_rows o payment_id w j q Hq) as (Hlen & q' & Hq' & Hcols & _).
    eauto.
  - destruct (handle_webhook_gate User_id settings json_dumps hmac_sha256_hexdigest
                o payload signature) as (rejected & logs & _ & _ & Hrun).
    rewrite Hrun. destruct rejected.
    + split; [done |]. exists q. auto using same_fixed_columns_refl.
    + by apply (delegate_rows o payload (add_trace w logs) j q).
Qed.

(** X7. Over any sequence of [check_payment] and [handle_webhook] passes
    the payment table keeps its length, and every row keeps its position
    and its [user_id], [yookassa_payment_id], [subscription_tier],
    [amount], [description] and [confirmation_url]: reconciliation never
    recomputes the amount from what the gateway reports. *)
Theorem reconciliation_keeps_fixed_columns
  (passes : list (Pass User)) (w : World User) (j : nat) (q : Payment) :
  payments w !! j = Some q ->
  length (payments (run_passes passes w)) = length (payments w)
  /\ exists q',
       payments (run_passes passes w) !! j = Some q' /\ same_fixed_columns q q'.
Proof.
  unfold reconcile_all. revert w q.
  induction passes as [| pass passes IH]; intros w q Hq; cbn.
  - split; [done |]. exists q. auto using same_fixed_columns_refl.
  - destruct (reconcile_rows pass w j q Hq) as (Hlen & q1 & Hq1 & Hcols1).
    destruct (IH _ _ Hq1) as (Hlen' & q' & Hq' & Hcols').
    split; [congruence |]. exists q'. split; [done |].
    eapply same_fixed_columns_trans; eauto.
Qed.

(** *** Creation *)

Lemma create_payment_outcome
  (o : Env User) (user : User) (tier : SubscriptionTier) (w : World User) :
  match create_payment User_id settings o user tier w with
  | (Raise _, w') => payments w' = payments w /\ users w' = users w
  | (Return p, w') =>
      payments w' = payments w ++ [p]
      /\ users w' = users w
      /\ exists request,
           trace w' = trace w ++ [GatewayCreate request (uuid4 o); Flush]
  end.
Proof.
  unfold create_payment.
  destruct (_get_tier_price_rubles settings tier <=? 0)%Z; [by split |].
  run_monad.
  destruct (YooPayment_create o _ (uuid4 o)) as [response | e]; cbn; [| by split].
  destruct (_map_status_returns (created_status response)) as [mapped Hmap].
  rewrite Hmap. cbn.
  destruct (created_confirmation response) as [c |]; cbn; [| by split].
  split; [done |]. split; [done |]. eexists. rewrite <- !app_assoc. reflexivity.
Qed.

(** X8. [create_payment] adds a row only when it returns: when it raises,
    for whatever reason, both tables are as they were; when it returns a
    payment, that payment is the one row appended to the payment table, the
    user table is as it was, and the gateway was asked exactly once. *)
Theorem create_payment_persists_only_on_return
  (o : Env User) (user : User) (tier : SubscriptionTier) (w : World User) :
  match create_payment User_id settings o user tier w with
  | (Raise _, w') => payments w' = payments w /\ users w' = users w
  | (Return p, w') =>
      payments w' = payments w ++ [p]
      /\ users w' = users w
      /\ exists request,
           trace w' = trace w ++ [GatewayCreate request (uuid4 o); Flush]
  end.
Proof. exact (create_payment_outcome o user tier w). Qed.

(** X9. When the price is positive and the gateway call raises,
    [create_payment] raises the same exception after logging an error, and
    nothing is added or flushed. *)
Theorem create_payment_gateway_failure_propagates
  (o : Env User) (user : User) (tier : SubscriptionTier) (w : World User)
  (e : Exception) :
  let price := _get_tier_price_rubles settings tier in
  let request :=
    payment_payload User_id settings price (payment_description User_id user tier)
      user tier in
  (0 < price)%Z ->
  YooPayment_create o request (uuid4 o) = Raise e ->
  create_payment User_id settings o user tier w
  = (Raise e,
     add_trace w [GatewayCreate request (uuid4 o);
                  Log ERROR "Failed to create YooKassa payment"]).
Proof.
  intros price request Hprice Hcreate.
  unfold create_payment. fold price.
  assert (Hleb : (price <=? 0)%Z = false) by (apply Z.leb_gt; exact Hprice).
  rewrite Hleb. fold request. run_monad. rewrite Hcreate. cbn.
  unfold add_trace. cbn. rewrite <- !app_assoc. reflexivity.
Qed.

(** X10. A payment that [create_payment] returns is found again by its
    gateway id: when no earlier row has the id the gateway assigned, the
    lookup that [check_payment] starts with selects the new row, at the end
    of the table; and when the gateway reported "succeeded" at creation,
    [check_payment] returns that payment without asking the gateway. *)
Theorem created_payment_is_found_by_gateway_id
  (o o' : Env User) (user : User) (tier : SubscriptionTier) (w w' : World User)
  (p : Payment) :
  create_payment User_id settings o user tier w = (Return p, w') ->
  Forall (fun q => yookassa_payment_id q <> yookassa_payment_id p) (payments w) ->
  lookup_payment (yookassa_payment_id p) (payments w')
  = Return (Some (length (payments w), p))
  /\ (status p = SUCCEEDED ->
      check o' (yookassa_payment_id p) w' = (Return p, w')).
Proof.
  intros Hcreate Hfresh.
  pose proof (create_payment_outcome o user tier w) as Hout.
  rewrite Hcreate in Hout. destruct Hout as [Hrows _].
  assert (Hrow : lookup_payment (yookassa_payment_id p) (payments w')
                 = Return (Some (length (payments w), p))).
  { rewrite Hrows. by apply lookup_payment_appended. }
  split; [exact Hrow |]. intros Hst.
  by apply (check_payment_succeeded User_id o' _ w' (length (payments w)) p).
Qed.

(** *** Webhooks *)

Lemma handle_webhook_unsigned (o : Env User) (payload : PyDictItems)
  (signature : option string) (w : World User) :
  truthy_opt_str signature = false ->
  webhook o payload signature w
  = delegate User_id o payload (add_trace w [webhook_info_log]).
Proof.
  intros Hfalsy.
  assert (Hnone : webhook o payload None w
                  = delegate User_id o payload (add_trace w [webhook_info_log])).
  { unfold handle_webhook, delegate. run_monad.
    destruct (py_get _ "id") as [payment_id | e]; cbn; [| reflexivity].
    destruct (negb (truthy payment_id)); [reflexivity |].
    destruct (check_payment_by_value User_id o payment_id _) as [[p' | e] w'];
      reflexivity. }
  destruct signature as [s |]; [| exact Hnone].
  rewrite <- Hnone. unfold handle_webhook. rewrite Hfalsy. reflexivity.
Qed.

(** X11. A delivery with a non-empty signature that does not verify is
    dropped: [handle_webhook] returns [None], touches neither table, and
    adds only log records to the trace (no gateway call, no grant). *)
Theorem handle_webhook_drops_rejected_signature
  (o : Env User) (payload : PyDictItems) (s : string) (w : World User) :
  s <> EmptyString ->
  fst (verify payload s w) = Return false ->
  exists logs,
    webhook o payload (Some s) w = (Return None, add_trace w logs)
    /\ List.filter is_gateway_call logs = []
    /\ List.filter is_grant logs = [].
Proof.
  intros Hne Hbad.
  destruct (verify_webhook_signature_pure (User := User) settings json_dumps
              hmac_sha256_hexdigest payload s) as (verdict & logs & Hlogs & Hrun).
  rewrite Hrun in Hbad. cbn in Hbad. injection Hbad as ->.
  exists (webhook_info_log :: logs ++ [webhook_rejected_log]).
  assert (Hall : forallb is_log (webhook_info_log :: logs ++ [webhook_rejected_log])
                 = true).
  { cbn. rewrite forallb_app, Hlogs. reflexivity. }
  destruct (is_log_not_a_call _ Hall) as [Hgw Hgr].
  split; [| by split].
  unfold handle_webhook.
  assert (Htruthy : truthy_opt_str (Some s) = true).
  { cbn. apply String.eqb_neq in Hne. by rewrite Hne. }
  rewrite Htruthy.
  unfold bind at 1. unfold log at 1, emit at 1. unfold bind at 1. unfold bind at 1.
  change {| payments := payments w; users := users w;
            trace := trace w ++ [Log INFO "Processing YooKassa webhook (v3.3 - Fixed)"] |}
    with (add_trace w [webhook_info_log]).
  rewrite Hrun. unfold ret at 1. cbn [negb]. run_monad.
  unfold add_trace. cbn. rewrite <- !app_assoc. reflexivity.
Qed.

(** X12. A delivery that names no payment (no ["object"], a falsy one, or
    an object whose ["id"] is missing or falsy) is ignored, whatever its
    signature: [handle_webhook] returns [None], touches neither table and
    adds only log records to the trace. *)
Theorem handle_webhook_ignores_delivery_without_id
  (o : Env User) (payload : PyDictItems) (signature : option string) (w : World User) :
  truthy (dict_get payload "object") = false
  \/ (exists event_object,
        dict_get payload "object" = PyDict event_object
        /\ truthy (dict_get event_object "id") = false) ->
  exists logs,
    webhook o payload signature w = (Return None, add_trace w logs)
    /\ List.filter is_gateway_call logs = []
    /\ List.filter is_grant logs = [].
Proof.
  intros Hno.
  destruct (handle_webhook_gate User_id settings json_dumps hmac_sha256_hexdigest
              o payload signature) as (rejected & logs & Hlogs & _ & Hrun).
  exists logs. destruct (is_log_not_a_call logs Hlogs) as [Hgw Hgr].
  split; [| by split]. rewrite Hrun. destruct rejected; [reflexivity |].
  unfold delegate, py_or.
  destruct Hno as [Hfalsy | (event_object & Hobject & Hid)].
  - rewrite Hfalsy. reflexivity.
  - rewrite Hobject.
    destruct (truthy (PyDict event_object)) eqn:Htruthy; cbn [py_get].
    + rewrite Hid. reflexivity.
    + reflexivity.
Qed.

End MoreReconciliation.

(** X13. A delivery with no signature, or with an empty one, is not
    verified at all: whatever the secret, the serialiser and the MAC, and
    whatever else the payload holds, [handle_webhook] does what it does for
    any other unsigned payload with the same [object.id]. The status and
    amount fields of the payload are never read. *)
Theorem handle_webhook_unsigned_depends_on_id_only {User : Type} (User_id : User -> Z)
  (settings settings' : Settings)
  (json_dumps json_dumps' : PyDictItems -> Result string)
  (hmac hmac' : string -> string -> Result string)
  (o : Env User) (payload payload' : PyDictItems)
  (signature signature' : option string) (w : World User) :
  truthy_opt_str signature = false ->
  truthy_opt_str signature' = false ->
  py_get (py_or (dict_get payload "object") (PyDict [])) "id"
  = py_get (py_or (dict_get payload' "object") (PyDict [])) "id" ->
  handle_webhook User_id settings json_dumps hmac o payload signature w
  = handle_webhook User_id settings' json_dumps' hmac' o payload' signature' w.
Proof.
  intros Hs Hs' Hid.
  rewrite (handle_webhook_unsigned User_id settings json_dumps hmac
             o payload signature w Hs).
  rewrite (handle_webhook_unsigned User_id settings' json_dumps' hmac'
             o payload' signature' w Hs').
  unfold delegate. rewrite Hid. reflexivity.
Qed.

(** ** More on the verifier *)

Section MoreVerifier.

Context {User : Type}.
Variable settings : Settings.
Variable json_dumps : PyDictItems -> Result string.
Variable hmac_sha256_hexdigest : string -> string -> Result string.

Local Abbreviation verify :=
  (verify_webhook_signature (User := User) settings json_dumps hmac_sha256_hexdigest).

Ltac run_monad :=
  unfold bind, try_except, lift, ret, raise, log, emit; cbn.

(** X14. With a configured secret, a signature verifies exactly when the
    payload serialises, the MAC of the serialisation under the secret is
    computed, and the signature is that digest, character for character and
    ASCII only. *)
Theorem verify_accepts_exactly_the_digest
  (secret : string) (payload : PyDictItems) (signature : string) (w : World User) :
  yookassa_webhook_secret settings = Some secret ->
  secret <> EmptyString ->
  fst (verify payload signature w) = Return true
  <-> exists body,
        json_dumps payload = Return body
        /\ hmac_sha256_hexdigest secret body = Return signature
        /\ is_ascii_str signature = true.
Proof.
  intros Hsecret Hne. apply String.eqb_neq in Hne.
  unfold verify_webhook_signature. rewrite Hsecret. cbn [truthy_opt_str default].
  rewrite Hne. cbn [negb]. run_monad.
  destruct (json_dumps payload) as [body | e1]; cbn.
  2:{ split; [discriminate | intros (b & [=] & _)]. }
  destruct (hmac_sha256_hexdigest secret body) as [expected | e2] eqn:Hmac; cbn.
  2:{ split; [discriminate |]. intros (b & [= <-] & Hb & _). congruence. }
  unfold compare_digest.
  destruct (is_ascii_str expected) eqn:Hascii_e, (is_ascii_str signature) eqn:Hascii_s;
    cbn.
  - destruct (String.eqb_spec expected signature) as [-> | Hdiff]; cbn.
    + split; [| done]. intros _. by exists body.
    + split; [discriminate |]. intros (b & [= <-] & Hb & _). congruence.
  - split; [discriminate |]. intros (b & _ & _ & [=]).
  - split; [discriminate |]. intros (b & [= <-] & Hb & _). congruence.
  - split; [discriminate |]. intros (b & _ & _ & [=]).
Qed.

(** X15. With a configured secret, an exception on the way to the verdict
    is not propagated: when the payload does not serialise, when the MAC
    raises, or when the signature holds a non-ASCII character,
    [verify_webhook_signature] logs an error and returns false. *)
Theorem verify_swallows_exceptions
  (payload : PyDictItems) (signature : string) (w : World User) :
  truthy_opt_str (yookassa_webhook_secret settings) = true ->
  (exists e, json_dumps payload = Raise e)
  \/ (exists body e,
        json_dumps payload = Return body
        /\ hmac_sha256_hexdigest
             (default EmptyString (yookassa_webhook_secret settings)) body = Raise e)
  \/ is_ascii_str signature = false ->
  verify payload signature w
  = (Return false,
     add_trace w [Log ERROR "Webhook signature verification failed: {exc}"]).
Proof.
  intros Hsecret Hcause.
  unfold verify_webhook_signature. rewrite Hsecret. cbn [negb]. run_monad.
  destruct Hcause as [[e He] | [(body & e & Hbody & He) | Hascii]].
  - rewrite He. reflexivity.
  - rewrite Hbody. cbn. rewrite He. reflexivity.
  - destruct (json_dumps payload) as [body | e1]; cbn; [| reflexivity].
    destruct (hmac_sha256_hexdigest _ body) as [expected | e2]; cbn; [| reflexivity].
    unfold compare_digest. rewrite Hascii, andb_false_r. reflexivity.
Qed.

End MoreVerifier.

(** ** Success is the literal "succeeded" only *)

(** X16. Whatever string the gateway reports, the status [_map_status]
    returns for it [is_successful] exactly when the string is "succeeded". *)
Theorem only_succeeded_literal_is_successful (raw : string) (s : PaymentStatus) :
  _map_status raw = Return s ->
  is_successful s = true <-> raw = "succeeded".
Proof.
  intros Hmap.
  destruct (in_dec string_dec raw known_status_literals) as [Hin | Hnot].
  - cbn in Hin. destruct Hin as [<- | [<- | [<- | [<- | []]]]];
      cbn in Hmap; injection Hmap as <-; cbn; split; congruence.
  - destruct (PaymentStatus_call_unknown raw Hnot) as [msg Hcall].
    unfold _map_status in Hmap. rewrite Hcall in Hmap.
    assert (Hs : s = WAITING_FOR_CAPTURE \/ s = PENDING).
    { destruct (String.eqb raw "waiting_for_capture"); injection Hmap as <-; auto. }
    split.
    + destruct Hs as [-> | ->]; discriminate.
    + intros ->. exfalso. apply Hnot. cbn. tauto.
Qed.

(** ** The older service *)

Section MoreService.

Context {User : Type} {Float : Type} {Price : Type}.
Variable User_id : User -> Z.
Variable float : string -> Result Float.
Variable get_tier_price : string -> Result Price.
Variable str : Price -> string.
Variable yookassa_return_url : string.
Variable Payment_create :
  Service.CreateRequest -> string -> Result Service.PaymentResponse.
Variable Payment_find_one : string -> Result Service.PaymentResponse.
Variable uuid4 : string.

Local Abbreviation service_check := (Service.check_payment float Payment_find_one).
Local Abbreviation service_create :=
  (Service.create_payment User_id float get_tier_price str yookassa_return_url
     Payment_create uuid4).

Lemma SubscriptionTier_of_cases (value : PyVal) :
  (exists t, Service.SubscriptionTier_of value = Return t)
  \/ (exists msg, Service.SubscriptionTier_of value = Raise (ValueError msg)).
Proof.
  destruct value; cbn; eauto.
  unfold SubscriptionTier_call.
  destruct (List.find _ SubscriptionTier_members); eauto.
Qed.

(** X17. The older [check_payment] casts the gateway status with
    [PaymentStatus(...)] and has no fallback: for a status that is none of
    the four known literals it raises [ValueError], after the gateway was
    asked. *)
Theorem service_check_payment_raises_on_unknown_status
  (payment_id : string) (response : Service.PaymentResponse) (meta : PyDictItems) :
  Payment_find_one payment_id = Return response ->
  Service.metadata response = PyDict meta ->
  ~ In (Service.status response) known_status_literals ->
  exists msg,
    service_check payment_id = (Raise (ValueError msg), [Service.FindOne payment_id]).
Proof.
  intros Hfind Hmeta Hnot.
  destruct (PaymentStatus_call_unknown _ Hnot) as [msg Hcall].
  exists msg. unfold Service.check_payment. rewrite Hfind, Hmeta.
  cbn [Service.py_get_default].
  destruct (SubscriptionTier_of_cases
              (Service.dict_get_default meta "tier" (PyStr "free")))
    as [[t Ht] | [m Ht]]; rewrite Ht, Hcall; reflexivity.
Qed.

(** X18. The older [check_payment] reads the tier from the metadata of the
    gateway's payment: a tier value stored there is the tier of the result
    (so the tier [create_payment] writes into the metadata is read back),
    and a missing key or a value that names no tier gives FREE instead of
    an error. *)
Theorem service_check_payment_tier_from_metadata
  (payment_id : string) (response : Service.PaymentResponse) (meta : PyDictItems)
  (s : PaymentStatus) (a : Float) :
  Payment_find_one payment_id = Return response ->
  Service.metadata response = PyDict meta ->
  Service.status response = PaymentStatus_value s ->
  float (Service.amount response) = Return a ->
  exists tier,
    service_check payment_id
    = (Return {| Service.data_yookassa_payment_id := Service.id response;
                 Service.data_status := s;
                 Service.data_subscription_tier := tier;
                 Service.data_confirmation_url := None;
                 Service.data_amount := a |},
       [Service.FindOne payment_id])
    /\ (forall t, Service.dict_get_default meta "tier" (PyStr "free")
                  = PyStr (SubscriptionTier_value t) -> tier = t)
    /\ ((forall t, Service.dict_get_default meta "tier" (PyStr "free")
                   <> PyStr (SubscriptionTier_value t)) -> tier = FREE).
Proof.
  intros Hfind Hmeta Hstatus Hfloat.
  unfold Service.check_payment. rewrite Hfind, Hmeta.
  cbn [Service.py_get_default].
  rewrite Hstatus, PaymentStatus_call_value, Hfloat.
  destruct (Service.dict_get_default meta "tier" (PyStr "free")) as [| | | v | |] eqn:Hv;
    cbn; try (exists FREE; split; [reflexivity |]; split; [intros t [=] | done]).
  unfold SubscriptionTier_call, SubscriptionTier_members. cbn [List.find].
  cbn [SubscriptionTier_value].
  destruct (String.eqb_spec "free" v) as [<- | Hfree].
  { exists FREE. split; [reflexivity |]. split; [| done]. by intros [] [=]. }
  destruct (String.eqb_spec "pro" v) as [<- | Hpro].
  { exists PRO. split; [reflexivity |]. split; [by intros [] [=] |].
    intros Hno. by destruct (Hno PRO). }
  destruct (String.eqb_spec "ultra" v) as [<- | Hultra].
  { exists ULTRA. split; [reflexivity |]. split; [by intros [] [=] |].
    intros Hno. by destruct (Hno ULTRA). }
  exists FREE. split; [reflexivity |]. split; [| done].
  intros [] [=]; congruence.
Qed.

(** X19. The older [create_payment] has the same cast: when the gateway
    answers the creation with a status that is none of the four known
    literals, the payment has been created at the gateway and the caller
    gets [ValueError]. It also sends whatever price the settings give,
    without the check for a positive price that the engine makes. *)
Theorem service_create_payment_raises_after_remote_creation
  (user : User) (tier : SubscriptionTier) (price : Price)
  (response : Service.PaymentResponse) :
  let request :=
    {| Service.amount_value := str price;
       Service.amount_currency := "RUB";
       Service.confirmation_type := "redirect";
       Service.confirmation_return_url := yookassa_return_url;
       Service.capture := true;
       Service.description :=
         "Подписка " +:+ SubscriptionTier_value tier
           +:+ " для пользователя " +:+ pretty (User_id user);
       Service.metadata_user_id := User_id user;
       Service.metadata_tier := SubscriptionTier_value tier |} in
  get_tier_price (SubscriptionTier_value tier) = Return price ->
  Payment_create request uuid4 = Return response ->
  ~ In (Service.status response) known_status_literals ->
  exists msg,
    service_create user tier = (Raise (ValueError msg), [Service.Create request uuid4]).
Proof.
  intros request Hprice Hcreate Hnot.
  destruct (PaymentStatus_call_unknown _ Hnot) as [msg Hcall].
  exists msg. unfold Service.create_payment. rewrite Hprice. fold request.
  rewrite Hcreate, Hcall. reflexivity.
Qed.

End MoreService.

(** ** The further properties at the concrete instance *)

Lemma check_payment_unknown_id_raises_witness :
  check_payment Example.User_id (Example.env "succeeded") "pay-404"
    (Example.world PENDING)
  = (Raise (ValueError "Payment not found"), Example.world PENDING).
Proof.
  assert (Hall : Forall (fun p => yookassa_payment_id p <> "pay-404")
                   (payments (Example.world PENDING))).
  { constructor; [cbn; discriminate | constructor]. }
  exact (check_payment_unknown_id_raises Example.User_id (Example.env "succeeded")
           "pay-404" (Example.world PENDING) Hall).
Defined.

Lemma check_payment_gateway_failure_propagates_witness :
  check_payment Example.User_id Scenario.env_gateway_down "pay-1"
    (Example.world PENDING)
  = (Raise (ExternalError "gateway down"),
     add_trace (Example.world PENDING)
       [GatewayFindOne "pay-1"; Log ERROR "Failed to check YooKassa payment"]).
Proof.
  assert (Hst : status (Example.payment PENDING) <> SUCCEEDED) by discriminate.
  exact (check_payment_gateway_failure_propagates Example.User_id
           Scenario.env_gateway_down "pay-1" (Example.world PENDING) 0
           (Example.payment PENDING) (ExternalError "gateway down")
           eq_refl Hst eq_refl).
Defined.

Lemma check_payment_records_unsuccessful_status_witness :
  let p' := reconciled (Example.payment PENDING) CANCELED 1700000002
              Scenario.found_canceled in
  check_payment Example.User_id Scenario.env_canceled "pay-1" (Example.world PENDING)
  = (Return p',
     {| payments := [p']; users := [7%Z]; trace := [GatewayFindOne "pay-1"; Flush] |})
  /\ status p' = CANCELED
  /\ processed_at p' = Some 1700000002%Z
  /\ error_message p' = Some "expired_on_confirmation".
Proof.
  assert (Hst : status (Example.payment PENDING) <> SUCCEEDED) by discriminate.
  assert (Hs : CANCELED <> SUCCEEDED) by discriminate.
  exact (check_payment_records_unsuccessful_status Example.User_id
           Scenario.env_canceled "pay-1" (Example.world PENDING) 0
           (Example.payment PENDING) Scenario.found_canceled CANCELED
           eq_refl Hst eq_refl eq_refl Hs).
Defined.

Lemma check_payment_leaves_other_payments_witness :
  payments (snd (check_payment Example.User_id (Example.env "succeeded") "pay-1"
                   (Scenario.two_payments PENDING))) !! 0
  = Some Scenario.other_payment.
Proof.
  assert (Hne : yookassa_payment_id Scenario.other_payment <> "pay-1")
    by (cbn; discriminate).
  exact (check_payment_leaves_other_payments Example.User_id (Example.env "succeeded")
           "pay-1" (Scenario.two_payments PENDING) 0 Scenario.other_payment
           eq_refl Hne).
Defined.

Lemma check_payment_idempotent_after_success_witness :
  check_payment Example.User_id (Example.env "canceled") "pay-1"
    Scenario.world_after_payment
  = (Return Scenario.paid_payment, Scenario.world_after_payment).
Proof.
  exact (check_payment_idempotent_after_success Example.User_id
           (Example.env "succeeded") (Example.env "canceled") "pay-1"
           (Example.world PENDING) Scenario.world_after_payment Scenario.paid_payment
           eq_refl eq_refl).
Defined.

Lemma check_payment_grants_only_on_new_success_witness :
  exists events,
    trace (snd (check_payment Example.User_id (Example.env "succeeded") "pay-1"
                  (Example.world PENDING)))
    = trace (Example.world PENDING) ++ events
    /\ length (List.filter is_gateway_call events) <= 1
    /\ length (List.filter is_grant events) <= 1.
Proof.
  destruct (check_payment_grants_only_on_new_success Example.User_id
              (Example.env "succeeded") "pay-1" (Example.world PENDING))
    as (events & Htrace & Hgw & Hgr & _).
  exists events. by repeat split.
Defined.

Lemma reconciliation_keeps_fixed_columns_witness :
  let passes :=
    [CheckPayment (Example.env "succeeded") "pay-1";
     HandleWebhook Scenario.env_canceled Example.payload None;
     CheckPayment Scenario.env_gateway_down "pay-2"] in
  let w' := reconcile_all Example.User_id Example.settings Example.json_dumps
              Example.hmac_sha256_hexdigest passes (Scenario.two_payments PENDING) in
  length (payments w') = 2
  /\ exists q', payments w' !! 1 = Some q'
                /\ same_fixed_columns (Example.payment PENDING) q'.
Proof.
  exact (reconciliation_keeps_fixed_columns Example.User_id Example.settings
           Example.json_dumps Example.hmac_sha256_hexdigest
           [CheckPayment (Example.env "succeeded") "pay-1";
            HandleWebhook Scenario.env_canceled Example.payload None;
            CheckPayment Scenario.env_gateway_down "pay-2"]
           (Scenario.two_payments PENDING) 1 (Example.payment PENDING) eq_refl).
Defined.

Lemma create_payment_gateway_failure_propagates_witness :
  create_payment Example.User_id Example.settings Scenario.env_gateway_down 7%Z PRO
    Example.empty_world
  = (Raise (ExternalError "gateway down"),
     add_trace Example.empty_world
       [GatewayCreate
          (payment_payload Example.User_id Example.settings 500
             (payment_description Example.User_id 7%Z PRO) 7%Z PRO)
          "idem-2";
        Log ERROR "Failed to create YooKassa payment"]).
Proof.
  assert (Hprice : (0 < _get_tier_price_rubles Example.settings PRO)%Z)
    by (cbn; lia).
  exact (create_payment_gateway_failure_propagates Example.User_id Example.settings
           Scenario.env_gateway_down 7%Z PRO Example.empty_world
           (ExternalError "gateway down") Hprice eq_refl).
Defined.

Lemma created_payment_is_found_by_gateway_id_witness :
  let w' :=
    {| payments := [Scenario.created_payment];
       users := [7%Z];
       trace :=
         [GatewayCreate
            (payment_payload Example.User_id Example.settings 500
               (payment_description Example.User_id 7%Z PRO) 7%Z PRO)
            "idem-1";
          Flush] |} in
  lookup_payment "pay-1" (payments w') = Return (Some (0, Scenario.created_payment))
  /\ check_payment Example.User_id Scenario.env_gateway_down "pay-1" w'
     = (Return Scenario.created_payment, w').
Proof.
  intros w'.
  destruct (created_payment_is_found_by_gateway_id Example.User_id Example.settings
              (Example.env "succeeded") Scenario.env_gateway_down 7%Z PRO
              Example.empty_world w' Scenario.created_payment eq_refl
              ltac:(constructor)) as [Hrow Hcheck].
  split; [exact Hrow | exact (Hcheck eq_refl)].
Defined.

Lemma handle_webhook_drops_rejected_signature_witness :
  exists logs,
    handle_webhook Example.User_id Example.settings Example.json_dumps
      Example.hmac_sha256_hexdigest (Example.env "succeeded") Example.payload
      (Some "forged") (Example.world PENDING)
    = (Return None, add_trace (Example.world PENDING) logs)
    /\ List.filter is_gateway_call logs = []
    /\ List.filter is_grant logs = [].
Proof.
  assert (Hne : "forged" <> EmptyString) by discriminate.
  exact (handle_webhook_drops_rejected_signature Example.User_id Example.settings
           Example.json_dumps Example.hmac_sha256_hexdigest (Example.env "succeeded")
           Example.payload "forged" (Example.world PENDING) Hne eq_refl).
Defined.

Lemma handle_webhook_ignores_delivery_without_id_witness :
  exists logs,
    handle_webhook Example.User_id Example.settings Example.json_dumps
      Example.hmac_sha256_hexdigest (Example.env "succeeded")
      Scenario.payload_without_object (Some "whsec{}") (Example.world PENDING)
    = (Return None, add_trace (Example.world PENDING) logs)
    /\ List.filter is_gateway_call logs = []
    /\ List.filter is_grant logs = [].
Proof.
  exact (handle_webhook_ignores_delivery_without_id Example.User_id Example.settings
           Example.json_dumps Example.hmac_sha256_hexdigest (Example.env "succeeded")
           Scenario.payload_without_object (Some "whsec{}") (Example.world PENDING)
           (or_introl eq_refl)).
Defined.

Lemma handle_webhook_unsigned_depends_on_id_only_witness :
  handle_webhook Example.User_id Example.settings Example.json_dumps
    Example.hmac_sha256_hexdigest (Example.env "succeeded") Example.payload None
    (Example.world PENDING)
  = handle_webhook Example.User_id Example.settings_no_secret Example.json_dumps
      Example.hmac_sha256_hexdigest (Example.env "succeeded")
      Scenario.payload_other_fields (Some EmptyString) (Example.world PENDING).
Proof.
  exact (handle_webhook_unsigned_depends_on_id_only Example.User_id
           Example.settings Example.settings_no_secret
           Example.json_dumps Example.json_dumps
           Example.hmac_sha256_hexdigest Example.hmac_sha256_hexdigest
           (Example.env "succeeded") Example.payload Scenario.payload_other_fields
           None (Some EmptyString) (Example.world PENDING) eq_refl eq_refl eq_refl).
Defined.

Lemma verify_accepts_exactly_the_digest_witness :
  fst (verify_webhook_signature Example.settings Example.json_dumps
         Example.hmac_sha256_hexdigest Example.payload "whsec{}"
         (Example.world PENDING)) = Return true.
Proof.
  assert (Hne : "whsec" <> EmptyString) by discriminate.
  apply (proj2 (verify_accepts_exactly_the_digest Example.settings Example.json_dumps
                  Example.hmac_sha256_hexdigest "whsec" Example.payload "whsec{}"
                  (Example.world PENDING) eq_refl Hne)).
  exists "{}". repeat split; reflexivity.
Defined.

Lemma verify_swallows_exceptions_witness :
  verify_webhook_signature Example.settings Example.json_dumps
    Example.hmac_sha256_hexdigest Example.payload "подпись" (Example.world PENDING)
  = (Return false,
     add_trace (Example.world PENDING)
       [Log ERROR "Webhook signature verification failed: {exc}"]).
Proof.
  exact (verify_swallows_exceptions Example.settings Example.json_dumps
           Example.hmac_sha256_hexdigest Example.payload "подпись"
           (Example.world PENDING) eq_refl (or_intror (or_intror eq_refl))).
Defined.

Lemma only_succeeded_literal_is_successful_witness :
  is_successful PENDING = true <-> "refunded" = "succeeded".
Proof.
  exact (only_succeeded_literal_is_successful "refunded" PENDING eq_refl).
Defined.

Lemma service_check_payment_raises_on_unknown_status_witness :
  exists msg,
    Service.check_payment Scenario.float
      (fun _ => Return (Scenario.response "refunded" (PyDict []))) "pay-1"
    = (Raise (ValueError msg), [Service.FindOne "pay-1"]).
Proof.
  assert (Hnot : ~ In "refunded" known_status_literals).
  { cbn. intros H. repeat (destruct H as [H | H]; [discriminate H |]). exact H. }
  exact (service_check_payment_raises_on_unknown_status Scenario.float
           (fun _ => Return (Scenario.response "refunded" (PyDict []))) "pay-1"
           (Scenario.response "refunded" (PyDict [])) [] eq_refl eq_refl Hnot).
Defined.

Lemma service_check_payment_tier_from_metadata_witness :
  exists tier,
    Service.check_payment Scenario.float
      (fun _ => Return (Scenario.response "succeeded"
                          (PyDict [("tier", PyStr "ultra")]))) "pay-1"
    = (Return {| Service.data_yookassa_payment_id := "pay-1";
                 Service.data_status := SUCCEEDED;
                 Service.data_subscription_tier := tier;
                 Service.data_confirmation_url := None;
                 Service.data_amount := "500.00" |},
       [Service.FindOne "pay-1"])
    /\ tier = ULTRA.
Proof.
  destruct (service_check_payment_tier_from_metadata Scenario.float
              (fun _ => Return (Scenario.response "succeeded"
                                  (PyDict [("tier", PyStr "ultra")]))) "pay-1"
              (Scenario.response "succeeded" (PyDict [("tier", PyStr "ultra")]))
              [("tier", PyStr "ultra")] SUCCEEDED "500.00"
              eq_refl eq_refl eq_refl eq_refl) as (tier & Hrun & Hread & _).
  exists tier. split; [exact Hrun |]. exact (Hread ULTRA eq_refl).
Defined.

Lemma service_create_payment_raises_after_remote_creation_witness :
  exists msg request,
    Service.create_payment Example.User_id Scenario.float Scenario.get_tier_price
      pretty "https://shop.example/return"
      (fun _ _ => Return (Scenario.response "refunded" (PyDict []))) "idem-1" 7%Z PRO
    = (Raise (ValueError msg), [Service.Create request "idem-1"])
    /\ Service.amount_value request = "500".
Proof.
  assert (Hnot : ~ In "refunded" known_status_literals).
  { cbn. intros H. repeat (destruct H as [H | H]; [discriminate H |]). exact H. }
  destruct (service_create_payment_raises_after_remote_creation Example.User_id
              Scenario.float Scenario.get_tier_price pretty
              "https://shop.example/return"
              (fun _ _ => Return (Scenario.response "refunded" (PyDict []))) "idem-1"
              7%Z PRO 500%Z (Scenario.response "refunded" (PyDict []))
              eq_refl eq_refl Hnot) as [msg Hrun].
  exists msg. eexists. split; [exact Hrun | reflexivity].
Defined.

Lemma handle_webhook_returns_on_dict_object_witness :
  let o := Example.env "succeeded" in
  let w := Example.world PENDING in
  let run :=
    handle_webhook Example.User_id Example.settings Example.json_dumps
      Example.hmac_sha256_hexdigest o Example.payload None w in
  exists logs,
    forallb is_log logs = true
    /\ (run = (Return None, add_trace w logs)
        \/ (exists p w',
              check_payment_by_value Example.User_id o (PyStr "pay-1")
                (add_trace w logs) = (Return p, w')
              /\ run = (Return (Some p), w'))
        \/ (exists e w',
              check_payment_by_value Example.User_id o (PyStr "pay-1")
                (add_trace w logs) = (Raise e, w')
              /\ run = (Return None, add_trace w' [webhook_error_log]))).
Proof.
  exact (handle_webhook_returns_on_dict_object Example.User_id Example.settings
           Example.json_dumps Example.hmac_sha256_hexdigest
           (Example.env "succeeded") Example.payload None (Example.world PENDING)
           [("id", PyStr "pay-1"); ("status", PyStr "succeeded")] eq_refl).
Defined.
